(** * Task routes of the backend API (backend/routes/tasks.js)

    A shallow embedding of the four task handlers
    (GET /, POST /, PUT /:id, DELETE /:id) together with the parts of
    express-validator, validator.js and Mongoose they call, and the
    properties of the query / mutation contract proved about them.

    Conventions of the embedding:
    - a JS string is a [string]; each [ascii] stands for one code unit in
      the range U+0000..U+00FF;
    - a JS number that the handlers use is an integer that a double
      holds exactly, an infinity or NaN ([num]); parseInt and + round
      to the nearest double;
    - a request body is a finite map from property names to JSON
      values: scalars and nested objects (arrays are outside the
      embedding);
    - the task collection is a list of documents in insertion order, and
      every store operation is recorded in a log. *)

From Stdlib Require Import ZArith String Ascii List Permutation Sorted DecimalString Lia.
From stdpp Require Import base option gmap strings list fin_maps.

Local Open Scope string_scope.
Local Open Scope Z_scope.

(** ** JavaScript strings *)

Module JS.

(** Code units matched by the regular expression class \s. *)
Definition is_space (c : ascii) : bool :=
  let n := N_of_ascii c in
  ((9 <=? n) && (n <=? 13) || (n =? 32) || (n =? 160))%N.

Fixpoint ltrim (s : string) : string :=
  match s with
  | EmptyString => EmptyString
  | String c r => if is_space c then ltrim r else s
  end.

Fixpoint rtrim (s : string) : string :=
  match s with
  | EmptyString => EmptyString
  | String c r =>
      match rtrim r with
      | EmptyString => if is_space c then EmptyString else String c EmptyString
      | r' => String c r'
      end
  end.

(** validator.js [trim(str)]: str.replace(/^\s+|\s+$/g, '') *)
Definition trim (s : string) : string := rtrim (ltrim s).

(** String.prototype.startsWith / substring(1) *)
Definition startsWith (s p : string) : bool := String.prefix p s.

Definition substring1 (s : string) : string :=
  match s with
  | EmptyString => EmptyString
  | String _ r => r
  end.

(** String(n) for an integer n *)
Definition string_of_Z (z : Z) : string := NilZero.string_of_int (Z.to_int z).

(** Numbers as the handlers see them: NaN, an infinity, or an integer
    that a double holds exactly. *)
Inductive num : Type :=
  | NaN
  | Inf (negative : bool)
  | Int (z : Z).

(** The Number value of a mathematical integer: the nearest double,
    a tie going to the even significand; an integer whose rounding
    reaches 2^1024 becomes an infinity. Below 2^53 every integer is its
    own double. *)
Definition of_Z (z : Z) : num :=
  let a := Z.abs z in
  if a <? 2 ^ 53 then Int z
  else
    let e := Z.log2 a - 52 in
    let q := a / 2 ^ e in
    let r := a mod 2 ^ e in
    let half := 2 ^ (e - 1) in
    let q' := if (half <? r) || (half =? r) && Z.odd q then q + 1 else q in
    let v := q' * 2 ^ e in
    if 2 ^ 1024 <=? v then Inf (z <? 0) else Int (Z.sgn z * v).

(** [a + b]: the exact sum, rounded. *)
Definition add (a b : num) : num :=
  match a, b with
  | Int x, Int y => of_Z (x + y)
  | Inf s, Int _ | Int _, Inf s => Inf s
  | Inf s, Inf s' => if Bool.eqb s s' then Inf s else NaN
  | _, _ => NaN
  end.

(** [a > b]; any comparison with NaN is false. *)
Definition gt (a b : num) : bool :=
  match a, b with
  | Int x, Int y => y <? x
  | Int _, Inf s => s
  | Inf s, Int _ => negb s
  | Inf s, Inf s' => negb s && s'
  | _, _ => false
  end.

Definition digit_value (radix : Z) (c : ascii) : option Z :=
  let n := Z.of_N (N_of_ascii c) in
  let v :=
    if (48 <=? n) && (n <=? 57) then Some (n - 48)
    else if (97 <=? n) && (n <=? 122) then Some (n - 87)
    else if (65 <=? n) && (n <=? 90) then Some (n - 55)
    else None in
  match v with
  | Some d => if d <? radix then Some d else None
  | None => None
  end.

(** The longest prefix of radix digits, read most significant first;
    [None] when the prefix is empty. *)
Fixpoint digits (radix : Z) (s : string) (acc : option Z) : option Z :=
  match s with
  | EmptyString => acc
  | String c r =>
      match digit_value radix c with
      | Some d => digits radix r (Some (radix * default 0 acc + d))
      | None => acc
      end
  end.

(** parseInt(s) with no radix argument. *)
Definition parseInt (s : string) : num :=
  let s1 := ltrim s in
  let '(sign, s2) :=
    match s1 with
    | String "-" r => (-1, r)
    | String "+" r => (1, r)
    | _ => (1, s1)
    end in
  let '(radix, s3) :=
    match s2 with
    | String "0" (String "x" r) => (16, r)
    | String "0" (String "X" r) => (16, r)
    | _ => (10, s2)
    end in
  match digits radix s3 None with
  | Some v => of_Z (sign * v)
  | None => NaN
  end.

End JS.

(** ** JSON values of a request body *)

#[warnings="-register-all"]
Inductive jsval : Type :=
  | JNull
  | JBool (b : bool)
  | JNum (z : Z)
  | JStr (s : string)
  | JObj (properties : gmap string jsval).

(** JavaScript truthiness, as used by [priority || 'medium'] and
    [dueDate ? ... : undefined]; an absent property is [undefined]. *)
Definition truthy (v : option jsval) : bool :=
  match v with
  | None | Some JNull => false
  | Some (JBool b) => b
  | Some (JNum z) => negb (z =? 0)
  | Some (JStr s) => negb (String.eqb s "")
  | Some (JObj _) => true
  end.

(** ** express-validator and validator.js *)

Module Validator.

(** The string a standard validator or sanitizer is applied to; a plain
    object prints as Object.prototype.toString has it. *)
Definition toString (v : option jsval) : string :=
  match v with
  | None | Some JNull => ""
  | Some (JBool b) => if b then "true" else "false"
  | Some (JNum z) => JS.string_of_Z z
  | Some (JStr s) => s
  | Some (JObj _) => "[object Object]"
  end.

(** isLength({min, max}) *)
Definition isLength (min : nat) (max : option nat) (s : string) : bool :=
  let len := String.length s in
  (min <=? len)%nat && match max with Some m => (len <=? m)%nat | None => true end.

(** isIn(values) *)
Definition isIn (values : list string) (s : string) : bool :=
  existsb (String.eqb s) values.

(** isBoolean() *)
Definition isBoolean (s : string) : bool := isIn ["true"; "false"; "1"; "0"] s.

Definition is_hex_digit (c : ascii) : bool :=
  match JS.digit_value 16 c with Some _ => true | None => false end.

(** isHexadecimal(): /^(0x|0h)?[0-9A-F]+$/i, hexadecimal digits after
    an optional radix prefix. *)
Definition is_radix_mark (c : ascii) : bool :=
  Ascii.eqb c "x" || Ascii.eqb c "X" || Ascii.eqb c "h" || Ascii.eqb c "H".

Definition isHexadecimal (s : string) : bool :=
  let digits :=
    match s with
    | String a (String c r) => if Ascii.eqb a "0" && is_radix_mark c then r else s
    | _ => s
    end in
  negb (String.eqb digits "") && forallb is_hex_digit (list_ascii_of_string digits).

(** isMongoId(): isHexadecimal(str) && str.length === 24 *)
Definition isMongoId (s : string) : bool :=
  isHexadecimal s && (String.length s =? 24)%nat.

(** One link of a validation chain. [Check] is a standard validator
    followed by its withMessage; [Sanitize] is a sanitizer. They run in
    the order in which the chain lists them, each on the value the
    previous links left behind. *)
Inductive step : Type :=
  | Check (test : string -> bool) (message : string)
  | Sanitize (f : string -> string).

Record chain : Type := {
  path : string;
  is_optional : bool;
  steps : list step
}.

(** An entry of errors.array(). *)
Record verror : Type := { field : string; msg : string }.

Fixpoint run_steps (p : string) (ss : list step) (v : option jsval)
  : list verror * option jsval :=
  match ss with
  | [] => ([], v)
  | Check test message :: rest =>
      let '(errs, v') := run_steps p rest v in
      if test (toString v) then (errs, v')
      else ({| field := p; msg := message |} :: errs, v')
  | Sanitize f :: rest => run_steps p rest (Some (JStr (f (toString v))))
  end.

(** Runs a chain on the value found at its path. A chain marked
    optional() does nothing when the value is undefined. *)
Definition run_chain (c : chain) (v : option jsval) : list verror * option jsval :=
  match c.(is_optional), v with
  | true, None => ([], None)
  | _, _ => run_steps c.(path) c.(steps) v
  end.

(** A sanitized value is written back at its path. *)
Definition write_back (p : string) (v : option jsval) (b : gmap string jsval)
  : gmap string jsval :=
  match v with
  | Some x => <[p := x]> b
  | None => b
  end.

(** Runs the body chains of a route in order, each on the body the
    previous ones left; the errors accumulate. *)
Fixpoint run_body (cs : list chain) (b : gmap string jsval)
  : list verror * gmap string jsval :=
  match cs with
  | [] => ([], b)
  | c :: rest =>
      let r := run_chain c (b !! c.(path)) in
      let r' := run_body rest (write_back c.(path) r.2 b) in
      ((r.1 ++ r'.1)%list, r'.2)
  end.

End Validator.

(** ** The Task model (Mongoose) *)

(** A stored task document. Object ids are kept as 24 lower-case
    hexadecimal characters, dates as milliseconds since the epoch. *)
Record task : Type := {
  _id : string;
  title : string;
  description : option string;
  completed : bool;
  priority : string;
  dueDate : option Z;
  user : string;
  createdAt : Z;
  updatedAt : Z
}.

Module Mongoose.

Definition lower (c : ascii) : ascii :=
  let n := N_of_ascii c in
  if ((65 <=? n) && (n <=? 90))%N then ascii_of_N (n + 32) else c.

Definition lowercase (s : string) : string :=
  string_of_list_ascii (map lower (list_ascii_of_string s)).

(** The shape of an identifier of the store: 24 hexadecimal digits. *)
Definition is_hex24 (s : string) : bool :=
  (String.length s =? 24)%nat
  && forallb Validator.is_hex_digit (list_ascii_of_string s).

(** Cast of a string to an ObjectId; [None] is a CastError. *)
Definition castObjectId (s : string) : option string :=
  if is_hex24 s then Some (lowercase s) else None.

(** Cast to the String schema type: the outer [None] is a CastError
    (a plain object has no string form of its own), the inner one the
    value null. *)
Definition castString (v : jsval) : option (option string) :=
  match v with
  | JNull => Some None
  | JObj _ => None
  | v => Some (Some (Validator.toString (Some v)))
  end.

(** Cast to the Boolean schema type; [None] is a CastError. A null
    never reaches the model from these routes (isBoolean refuses it) and
    is counted with the failures. *)
Definition castBoolean (v : jsval) : option bool :=
  match v with
  | JBool b => Some b
  | JNum 1 => Some true
  | JNum 0 => Some false
  | JStr s =>
      if Validator.isIn ["true"; "1"; "yes"] s then Some true
      else if Validator.isIn ["false"; "0"; "no"] s then Some false
      else None
  | _ => None
  end.

(** The largest magnitude of a valid Date time value. *)
Definition max_time : Z := 8640000000000000.

Definition valid_time (z : Z) : option Z :=
  if Z.abs z <=? max_time then Some z else None.

End Mongoose.

(** Modelled from the spec: the schema of models/Task.js, which is not
    among the sources. Section 3 of the specification and the Data
    Models section of the backend's README (README lines 125-133) give
    its paths: [title] (String, required, at most 100 characters,
    trimmed), [description] (String, at most 500 characters, trimmed),
    [completed] (Boolean, default false), [priority] (one of low /
    medium / high, default medium), [dueDate] (Date), [user] (ObjectId
    referring to a User, required), and the [createdAt] / [updatedAt]
    timestamps. Unknown paths are dropped (Mongoose's default strict
    mode). The specification calls the owner immutable after creation,
    and the README lists [user] as a reference without saying so:
    whether the schema marks the path immutable, so that Mongoose
    strips it from every update, is left to the routes as the parameter
    [owner_immutable]. *)
Module TaskSchema.

Definition title_maxlength : nat := 100.
Definition description_maxlength : nat := 500.
Definition priority_enum : list string := ["low"; "medium"; "high"].
Definition completed_default : bool := false.
Definition priority_default : string := "medium".

(** The trim setter followed by the validators of [title]:
    required and maxlength. *)
Definition set_title (v : option jsval) : option string :=
  match v with
  | None => None
  | Some v =>
      match Mongoose.castString v with
      | Some (Some s) =>
          let s' := JS.trim s in
          if negb (String.eqb s' "") && (String.length s' <=? title_maxlength)%nat
          then Some s' else None
      | _ => None
      end
  end.

(** [description]: the outer [None] is a cast or validation error. *)
Definition set_description (v : option jsval) : option (option string) :=
  match v with
  | None => Some None
  | Some v =>
      match Mongoose.castString v with
      | None => None
      | Some None => Some None
      | Some (Some s) =>
          let s' := JS.trim s in
          if (String.length s' <=? description_maxlength)%nat
          then Some (Some s') else None
      end
  end.

(** The enum validator of [priority]. *)
Definition check_priority (s : string) : option string :=
  if Validator.isIn priority_enum s then Some s else None.

(** [priority] of a new document: an undefined value takes the default
    (and so does null here, which these routes never pass). *)
Definition set_priority (v : option jsval) : option string :=
  match v with
  | None => Some priority_default
  | Some v =>
      match Mongoose.castString v with
      | None => None
      | Some None => Some priority_default
      | Some (Some s) => check_priority s
      end
  end.

(** [priority] in an update: the cast followed by the enum validator. *)
Definition update_priority (v : jsval) : option string :=
  match Mongoose.castString v with
  | Some (Some s) => check_priority s
  | _ => None
  end.

(** [completed] of a new document. *)
Definition set_completed (v : option jsval) : option bool :=
  match v with
  | None => Some completed_default
  | Some v => Mongoose.castBoolean v
  end.

End TaskSchema.

(** ** The task collection *)

Module Store.

(** What a query asks of a string field: equality with a string, or the
    operators of a nested object, which stand for some test of the field
    or cannot be cast ([None]). *)
Inductive asks : Type :=
  | Equals (s : string)
  | Operators (test : option (string -> bool)).

(** The conditions of a query on the collection. *)
Record conditions : Type := {
  c_id : option string;
  c_user : string;
  c_completed : option bool;
  c_priority : option asks
}.

Definition castable (c : conditions) : bool :=
  match c.(c_priority) with
  | Some (Operators None) => false
  | _ => true
  end.

Definition asks_match (a : option asks) (x : string) : bool :=
  match a with
  | None => true
  | Some (Equals s) => String.eqb s x
  | Some (Operators (Some test)) => test x
  | Some (Operators None) => false
  end.

Definition opt_eqb {A} (eqb : A -> A -> bool) (c : option A) (x : A) : bool :=
  match c with
  | Some y => eqb y x
  | None => true
  end.

(** A document matches when it meets every condition present. *)
Definition matches (c : conditions) (t : task) : bool :=
  opt_eqb String.eqb c.(c_id) t.(_id)
  && String.eqb c.(c_user) t.(user)
  && opt_eqb Bool.eqb c.(c_completed) t.(completed)
  && asks_match c.(c_priority) t.(priority).

(** Values of document fields, in BSON's order of types. *)
Inductive bson : Type :=
  | BNull
  | BString (s : string)
  | BObjectId (s : string)
  | BBool (b : bool)
  | BDate (z : Z).

Definition type_rank (v : bson) : Z :=
  match v with
  | BNull => 0
  | BString _ => 1
  | BObjectId _ => 2
  | BBool _ => 3
  | BDate _ => 4
  end.

Definition bson_compare (a b : bson) : comparison :=
  match a, b with
  | BString x, BString y => String.compare x y
  | BObjectId x, BObjectId y => String.compare x y
  | BBool x, BBool y => Bool.compare x y
  | BDate x, BDate y => Z.compare x y
  | _, _ => Z.compare (type_rank a) (type_rank b)
  end.

Definition field_value (k : string) (t : task) : bson :=
  if String.eqb k "_id" then BObjectId t.(_id)
  else if String.eqb k "title" then BString t.(title)
  else if String.eqb k "description" then
    match t.(description) with Some s => BString s | None => BNull end
  else if String.eqb k "completed" then BBool t.(completed)
  else if String.eqb k "priority" then BString t.(priority)
  else if String.eqb k "dueDate" then
    match t.(dueDate) with Some d => BDate d | None => BNull end
  else if String.eqb k "user" then BObjectId t.(user)
  else if String.eqb k "createdAt" then BDate t.(createdAt)
  else if String.eqb k "updatedAt" then BDate t.(updatedAt)
  else BNull.

(** Order of two documents under a sort specification: the keys are
    compared in turn, 1 ascending and -1 descending. *)
Fixpoint doc_compare (spec : list (string * Z)) (a b : task) : comparison :=
  match spec with
  | [] => Eq
  | (k, dir) :: rest =>
      match bson_compare (field_value k a) (field_value k b) with
      | Eq => doc_compare rest a b
      | c => if dir <? 0 then CompOpp c else c
      end
  end.

Fixpoint insert_sorted (spec : list (string * Z)) (x : task) (l : list task) : list task :=
  match l with
  | [] => [x]
  | y :: r =>
      match doc_compare spec x y with
      | Gt => y :: insert_sorted spec x r
      | _ => x :: l
      end
  end.

Definition sort_docs (spec : list (string * Z)) (l : list task) : list task :=
  foldr (insert_sorted spec) [] l.

(** The parts of a field path, which dots separate. *)
Fixpoint path_parts (s part : string) : list string :=
  match s with
  | EmptyString => [part]
  | String c r =>
      if Ascii.eqb c "." then part :: path_parts r EmptyString
      else path_parts r (part ++ String c EmptyString)
  end.

(** A key the server takes in a sort: $natural, or a field path none of
    whose parts is empty or starts with a dollar sign. *)
Definition sort_key_ok (k : string) : bool :=
  String.eqb k "$natural"
  || forallb (fun part => negb (String.eqb part "") && negb (String.prefix "$" part))
       (path_parts k EmptyString).

(** The matching documents in the order a sort asks for. An empty
    specification and $natural ascending keep the order of insertion,
    $natural descending reverses it. *)
Definition order (spec : list (string * Z)) (l : list task) : list task :=
  match spec with
  | [(k, dir)] =>
      if String.eqb k "$natural" then (if dir <? 0 then rev l else l)
      else sort_docs spec l
  | _ => sort_docs spec l
  end.

(** The window cut by skip and limit. The server refuses NaN, an
    infinity, a number that is no 64-bit integer and a negative skip
    ([None]); limit 0 is no limit and a negative limit counts as its
    absolute value. *)
Definition window (limit skip : JS.num) (l : list task) : option (list task) :=
  match limit, skip with
  | JS.Int n, JS.Int k =>
      if (k <? 0) || (2 ^ 63 <=? k) || (2 ^ 63 <=? Z.abs n) then None
      else
        let rest := drop (Z.to_nat k) l in
        Some (if n =? 0 then rest else take (Z.to_nat (Z.abs n)) rest)
  | _, _ => None
  end.

(** What find answers with: the server refuses a sort key that is no
    field path, and a window it cannot cut. *)
Definition page (spec : list (string * Z)) (limit skip : JS.num) (l : list task)
  : option (list task) :=
  if forallb (fun kv => sort_key_ok kv.1) spec then window limit skip (order spec l)
  else None.

(** The largest count that reaches the handler as the number it is: a
    collection is taken to hold no more documents than that. *)
Definition capacity : Z := 2 ^ 53.

(** What a cast update document does, path by path: the values under
    $set, and what the other operators of the document do to a task
    ([None] when the server refuses). *)
Record update : Type := {
  u_id : option string;
  u_title : option string;
  u_description : option (option string);
  u_completed : option bool;
  u_priority : option string;
  u_dueDate : option (option Z);
  u_user : option string;
  u_operators : task -> option task
}.

(** Applies the update to a document and refreshes updatedAt. The
    server refuses a change of _id ([None]). *)
Definition apply_update (u : update) (now : Z) (t : task) : option task :=
  match u.(u_operators) t with
  | Some t1 =>
      if opt_eqb String.eqb u.(u_id) t.(_id) && String.eqb t1.(_id) t.(_id) then
        Some {| _id := t.(_id);
                title := default t1.(title) u.(u_title);
                description := default t1.(description) u.(u_description);
                completed := default t1.(completed) u.(u_completed);
                priority := default t1.(priority) u.(u_priority);
                dueDate := default t1.(dueDate) u.(u_dueDate);
                user := default t1.(user) u.(u_user);
                createdAt := t1.(createdAt);
                updatedAt := now |}
      else None
  | None => None
  end.

(** Replaces the first document that matches; [None] when there is none. *)
Fixpoint update_first (c : conditions) (f : task -> option task) (l : list task)
  : option (option (task * list task)) :=
  match l with
  | [] => Some None
  | t :: r =>
      if matches c t then
        match f t with
        | Some t' => Some (Some (t', t' :: r))
        | None => None
        end
      else
        match update_first c f r with
        | Some (Some (t', r')) => Some (Some (t', t :: r'))
        | other => other
        end
  end.

(** Removes the first document that matches. *)
Fixpoint delete_first (c : conditions) (l : list task) : option (task * list task) :=
  match l with
  | [] => None
  | t :: r =>
      if matches c t then Some (t, r)
      else
        match delete_first c r with
        | Some (d, r') => Some (d, t :: r')
        | None => None
        end
  end.

End Store.

(** ** Handlers as computations on the collection *)

(** Calls that reach the database, with the conditions they carry. *)
Inductive store_op : Type :=
  | OpFind (c : Store.conditions)
  | OpCountDocuments (c : Store.conditions)
  | OpSave (t : task)
  | OpFindOneAndUpdate (c : Store.conditions)
  | OpFindOneAndDelete (c : Store.conditions).

Record world : Type := {
  tasks : list task;
  oplog : list store_op
}.

(** The outcome of an awaited call: a value, or a thrown error. *)
Inductive result (A : Type) : Type :=
  | Ok (a : A)
  | Throw.
Arguments Ok {A} a.
Arguments Throw {A}.

Definition M (A : Type) : Type := world -> result A * world.

Definition ret {A} (a : A) : M A := fun w => (Ok a, w).

Definition bind {A B} (m : M A) (k : A -> M B) : M B :=
  fun w =>
    match m w with
    | (Ok a, w') => k a w'
    | (Throw, w') => (Throw, w')
    end.

Definition throw {A} : M A := fun w => (Throw, w).

Notation "x <- m ;; k" := (bind m (fun x => k))
  (at level 100, m at next level, right associativity).

(** try { body } catch (error) { handler } *)
Definition try_catch {A} (body handler : M A) : M A :=
  fun w =>
    match body w with
    | (Ok a, w') => (Ok a, w')
    | (Throw, w') => handler w'
    end.

Definition log (op : store_op) : M unit :=
  fun w => (Ok tt, {| tasks := w.(tasks); oplog := (w.(oplog) ++ [op])%list |}).

Definition read_tasks : M (list task) := fun w => (Ok w.(tasks), w).

Definition write_tasks (l : list task) : M unit :=
  fun w => (Ok tt, {| tasks := l; oplog := w.(oplog) |}).

(** A value that may be a rejected cast or validation. *)
Definition lift {A} (o : option A) : M A :=
  match o with
  | Some a => ret a
  | None => throw
  end.

(** The cast of the conditions, which comes before the call. *)
Definition cast_conditions (c : Store.conditions) : M unit :=
  if Store.castable c then ret tt else throw.

(** Task.find(c).sort(spec).limit(limit).skip(skip) *)
Definition find (c : Store.conditions) (spec : list (string * Z)) (limit skip : JS.num)
  : M (list task) :=
  _ <- cast_conditions c ;;
  _ <- log (OpFind c) ;;
  l <- read_tasks ;;
  lift (Store.page spec limit skip (List.filter (Store.matches c) l)).

(** Task.countDocuments(c); a count beyond the capacity is no answer. *)
Definition countDocuments (c : Store.conditions) : M Z :=
  _ <- cast_conditions c ;;
  _ <- log (OpCountDocuments c) ;;
  l <- read_tasks ;;
  let n := Z.of_nat (length (List.filter (Store.matches c) l)) in
  if n <=? Store.capacity then ret n else throw.

(** task.save() of a new document; [None] is a document that fails the
    schema's validation, which throws before anything is written. *)
Definition save (doc : option task) : M task :=
  t <- lift doc ;;
  _ <- log (OpSave t) ;;
  l <- read_tasks ;;
  _ <- write_tasks (l ++ [t])%list ;;
  ret t.

(** Task.findOneAndUpdate(c, u, { new: true, runValidators: true });
    [None] for [u] is an update that fails casting or validation. *)
Definition findOneAndUpdate (c : option Store.conditions) (u : option Store.update) (now : Z)
  : M (option task) :=
  c <- lift c ;;
  u <- lift u ;;
  _ <- log (OpFindOneAndUpdate c) ;;
  l <- read_tasks ;;
  r <- lift (Store.update_first c (Store.apply_update u now) l) ;;
  match r with
  | Some (t, l') => _ <- write_tasks l' ;; ret (Some t)
  | None => ret None
  end.

(** Task.findOneAndDelete(c) *)
Definition findOneAndDelete (c : option Store.conditions) : M (option task) :=
  c <- lift c ;;
  _ <- log (OpFindOneAndDelete c) ;;
  l <- read_tasks ;;
  match Store.delete_first c l with
  | Some (t, l') => _ <- write_tasks l' ;; ret (Some t)
  | None => ret None
  end.

(** Conditions { _id: id, user: uid }; the cast of [id] may fail. *)
Definition by_id_and_user (id uid : string) : option Store.conditions :=
  match Mongoose.castObjectId id with
  | Some i =>
      Some {| Store.c_id := Some i; Store.c_user := uid;
              Store.c_completed := None; Store.c_priority := None |}
  | None => None
  end.

(** ** Responses *)

Record pagination : Type := {
  total : Z;
  limit : JS.num;
  skip : JS.num;
  hasMore : bool
}.

Inductive response : Type :=
  | TaskList (l : list task) (p : pagination)
  | Created (message : string) (t : task)
  | Updated (message : string) (t : task)
  | Deleted (message : string)
  | ValidationFailed (message : string) (errors : list Validator.verror)
  | NotFound (message : string)
  | ServerError (message : string).

Definition status (r : response) : Z :=
  match r with
  | TaskList _ _ | Updated _ _ | Deleted _ => 200
  | Created _ _ => 201
  | ValidationFailed _ _ => 400
  | NotFound _ => 404
  | ServerError _ => 500
  end.

(** A handler always answers: what it leaves is a response and a world. *)
Definition respond (m : M response) (w : world) : response * world :=
  match m w with
  | (Ok r, w') => (r, w')
  | (Throw, w') => (ServerError "Internal Server Error", w')
  end.

(** ** A reader of calendar dates

    The routes take the ISO 8601 test and the string-to-date conversions
    from their libraries. The examples below run them with this reader
    of the plain calendar form YYYY-MM-DD; the test, like the one of
    validator.js, also accepts the week form YYYY-Www, which the Date
    constructor does not read. *)

Module CalendarDate.

Definition digit (c : ascii) : option Z := JS.digit_value 10 c.

Definition number (cs : list ascii) : option Z :=
  foldl (fun acc c => a ← acc; d ← digit c; Some (10 * a + d)) (Some 0) cs.

(** Year, month and day of a string of the form YYYY-MM-DD. *)
Definition fields (s : string) : option (Z * Z * Z) :=
  match list_ascii_of_string s with
  | [y1; y2; y3; y4; "-"%char; m1; m2; "-"%char; d1; d2] =>
      y ← number [y1; y2; y3; y4];
      m ← number [m1; m2];
      d ← number [d1; d2];
      if (1 <=? m) && (m <=? 12) && (1 <=? d) && (d <=? 31) then Some (y, m, d) else None
  | _ => None
  end.

(** Days from 1970-01-01 to the given civil date. *)
Definition days_from_civil (y m d : Z) : Z :=
  let y' := if m <=? 2 then y - 1 else y in
  let era := y' / 400 in
  let yoe := y' - era * 400 in
  let doy := (153 * (if 2 <? m then m - 3 else m + 9) + 2) / 5 + d - 1 in
  let doe := yoe * 365 + yoe / 4 - yoe / 100 + doy in
  era * 146097 + doe - 719468.

(** Year and week of a string of the form YYYY-Www. *)
Definition week_fields (s : string) : option (Z * Z) :=
  match list_ascii_of_string s with
  | [y1; y2; y3; y4; "-"%char; "W"%char; w1; w2] =>
      y ← number [y1; y2; y3; y4];
      w ← number [w1; w2];
      if (1 <=? w) && (w <=? 53) then Some (y, w) else None
  | _ => None
  end.

Definition isISO8601 (s : string) : bool :=
  match fields s, week_fields s with
  | None, None => false
  | _, _ => true
  end.

Definition Date_parse (s : string) : option Z :=
  '(y, m, d) ← fields s;
  Some (days_from_civil y m d * 86400000).

End CalendarDate.

(** A value of req.query: a string, or the array or nested object that
    the query parser builds from bracketed parameters. Of the latter the
    handler sees what String() prints, and the store the test it takes
    it to ask of a field ([None] when it cannot cast it). *)
Inductive qvalue : Type :=
  | QString (s : string)
  | QNested (printed : string) (test : option (string -> bool)).

Definition String_of (v : qvalue) : string :=
  match v with
  | QString s => s
  | QNested printed _ => printed
  end.

(** req.query: each parameter is absent or has a value. *)
Record query : Type := {
  q_completed : option qvalue;
  q_priority : option qvalue;
  q_sort : option qvalue;
  q_limit : option qvalue;
  q_skip : option qvalue
}.

(** ** The frontend: TaskList, TaskForm, Dashboard and useApi *)

Module Frontend.

(** String.prototype.toLowerCase on code units below U+0100: the Latin
    capitals and the accented capitals U+00C0..U+00DE, the
    multiplication sign apart. *)
Definition lower_unit (c : ascii) : ascii :=
  let n := N_of_ascii c in
  if ((65 <=? n) && (n <=? 90) || (192 <=? n) && (n <=? 222) && negb (n =? 215))%N
  then ascii_of_N (n + 32) else c.

Fixpoint toLowerCase (s : string) : string :=
  match s with
  | EmptyString => EmptyString
  | String c r => String (lower_unit c) (toLowerCase r)
  end.

(** String.prototype.includes *)
Fixpoint includes (s sub : string) : bool :=
  String.prefix sub s
  || match s with
     | EmptyString => false
     | String _ r => includes r sub
     end.

(** An object as the components read it: the properties they use, each
    undefined ([None]) when the object lacks it; completed by its
    truthiness. *)
Record item : Type := {
  i_id : option string;
  i_title : option string;
  i_description : option string;
  i_completed : bool
}.

(** The JSON of a stored task; an undefined description is left out. *)
Definition item_of_task (t : task) : item :=
  {| i_id := Some t.(_id); i_title := Some t.(title);
     i_description := t.(description); i_completed := t.(completed) |}.

(** An object with none of these properties, such as the envelope
    { success, message, task } of a response. *)
Definition no_properties : item :=
  {| i_id := None; i_title := None; i_description := None; i_completed := false |}.

(** *** TaskList *)

(** matchesSearch; reading toLowerCase of an undefined title or
    description is a TypeError ([None]). The description is read only
    when the title does not match. *)
Definition matchesSearch (searchTerm : string) (t : item) : option bool :=
  ttl ← t.(i_title);
  if includes (toLowerCase ttl) (toLowerCase searchTerm) then Some true
  else d ← t.(i_description); Some (includes (toLowerCase d) (toLowerCase searchTerm)).

Definition matchesFilter (filter : string) (t : item) : bool :=
  String.eqb filter "all"
  || String.eqb filter "completed" && t.(i_completed)
  || String.eqb filter "pending" && negb t.(i_completed).

Definition keeps (searchTerm filter : string) (t : item) : option bool :=
  ms ← matchesSearch searchTerm t; Some (ms && matchesFilter filter t).

(** Array.prototype.filter with a callback that may throw. *)
Fixpoint filter_throwing {A} (f : A -> option bool) (l : list A) : option (list A) :=
  match l with
  | [] => Some []
  | x :: r =>
      k ← f x; r' ← filter_throwing f r; Some (if k : bool then x :: r' else r')
  end.

(** The value of the tasks prop or state: an array, or something that
    is not one. *)
Inductive tasks_value : Type :=
  | Arr (l : list item)
  | NotArr.

(** filteredTasks; a value without a filter method is a TypeError. *)
Definition filteredTasks (tasks : tasks_value) (searchTerm filter : string)
  : option (list item) :=
  match tasks with
  | Arr l => filter_throwing (keeps searchTerm filter) l
  | NotArr => None
  end.

(** *** TaskForm *)

Record formData : Type := {
  f_title : string;
  f_description : string;
  f_completed : bool
}.

Record formErrors : Type := {
  e_title : option string;
  e_description : option string
}.

Definition blank (s : string) : bool := String.eqb (JS.trim s) "".

Definition validateForm (d : formData) : formErrors :=
  {| e_title := if blank d.(f_title) then Some "Title is required" else None;
     e_description :=
       if blank d.(f_description) then Some "Description is required" else None |}.

Definition no_errors (e : formErrors) : bool :=
  match e.(e_title), e.(e_description) with
  | None, None => true
  | _, _ => false
  end.

Record form : Type := {
  fm_data : formData;
  fm_errors : formErrors
}.

Definition initial_formData : formData :=
  {| f_title := ""; f_description := ""; f_completed := false |}.

(** handleSubmit: the form after the event, and the data handed to
    onSubmit if it was called. [editing] tells whether initialData is
    set. *)
Definition handleSubmit (editing : bool) (f : form) : form * option formData :=
  let validationErrors := validateForm f.(fm_data) in
  if no_errors validationErrors then
    ({| fm_data := if editing then f.(fm_data) else initial_formData;
        fm_errors := f.(fm_errors) |},
     Some f.(fm_data))
  else ({| fm_data := f.(fm_data); fm_errors := validationErrors |}, None).

(** The JSON body axios sends for the form data. *)
Definition body_of (d : formData) : gmap string jsval :=
  <["title" := JStr d.(f_title)]>
    (<["description" := JStr d.(f_description)]>
       {[ "completed" := JBool d.(f_completed) ]}).

(** *** Dashboard *)

(** response.data: an array of objects or a single object. *)
Inductive data : Type :=
  | DArray (l : list item)
  | DObject (o : item).

(** An awaited axios call: resolved with a response, or rejected. *)
Inductive reply : Type :=
  | Resolved (d : data)
  | Rejected.

Definition as_tasks (d : data) : tasks_value :=
  match d with
  | DArray l => Arr l
  | DObject _ => NotArr
  end.

(** The data as one element of a list of tasks; an array has none of
    the properties of a task. *)
Definition as_element (d : data) : item :=
  match d with
  | DArray _ => no_properties
  | DObject o => o
  end.

Record dashboard : Type := {
  d_tasks : tasks_value;
  d_loading : bool;
  d_editing : option item
}.

Definition initial_dashboard : dashboard :=
  {| d_tasks := Arr []; d_loading := true; d_editing := None |}.

Definition fetchTasks (r : reply) (s : dashboard) : dashboard :=
  {| d_tasks := match r with Resolved d => as_tasks d | Rejected => s.(d_tasks) end;
     d_loading := false;
     d_editing := s.(d_editing) |}.

(** [...tasks, response.data]; spreading a value that is not iterable
    throws, and the catch block leaves the state as it is. *)
Definition handleAddTask (r : reply) (s : dashboard) : dashboard :=
  match r, s.(d_tasks) with
  | Resolved d, Arr l =>
      {| d_tasks := Arr (l ++ [as_element d])%list; d_loading := s.(d_loading);
         d_editing := s.(d_editing) |}
  | _, _ => s
  end.

Definition same_id (a b : option string) : bool := bool_decide (a = b).

(** tasks.map(task => task._id === id ? response.data : task), then
    setEditingTask(null). *)
Definition handleUpdateTask (id : option string) (r : reply) (s : dashboard) : dashboard :=
  match r, s.(d_tasks) with
  | Resolved d, Arr l =>
      {| d_tasks := Arr (map (fun t => if same_id t.(i_id) id then as_element d else t) l);
         d_loading := s.(d_loading); d_editing := None |}
  | _, _ => s
  end.

(** tasks.filter(task => task._id !== id) *)
Definition handleDeleteTask (id : option string) (r : reply) (s : dashboard) : dashboard :=
  match r, s.(d_tasks) with
  | Resolved _, Arr l =>
      {| d_tasks := Arr (List.filter (fun t => negb (same_id t.(i_id) id)) l);
         d_loading := s.(d_loading); d_editing := s.(d_editing) |}
  | _, _ => s
  end.

(** What axios makes of an answer of this backend: a status of the 2xx
    range resolves, any other rejects; the body of every answer is an
    envelope object. *)
Definition axios (r : response) : reply :=
  if (200 <=? status r) && (status r <? 300) then Resolved (DObject no_properties)
  else Rejected.

(** *** useApi *)

(** The error a rejected request carries: the message of the response
    body, if there is a response with one, and the message of the error
    itself. *)
Record failure : Type := {
  response_message : option string;
  message : string
}.

Inductive outcome (A : Type) : Type :=
  | Fulfilled (a : A)
  | Thrown (e : failure).
Arguments Fulfilled {A} a.
Arguments Thrown {A} e.

Record api_state : Type := {
  loading : bool;
  error : option string
}.

(** makeRequest: the states the hook goes through, in order, and what
    the call returns or rethrows. *)
Definition makeRequest {A} (o : outcome A) (s : api_state)
  : list api_state * outcome A :=
  let s1 := {| loading := true; error := s.(error) |} in
  let s2 := {| loading := true; error := None |} in
  match o with
  | Fulfilled a => ([s1; s2; {| loading := false; error := None |}], Fulfilled a)
  | Thrown e =>
      let shown :=
        match e.(response_message) with
        | Some m => if String.eqb m "" then e.(message) else m
        | None => e.(message)
        end in
      let s3 := {| loading := true; error := Some shown |} in
      ([s1; s2; s3; {| loading := false; error := Some shown |}], Thrown e)
  end.

End Frontend.

(** ** Sample data for the examples *)

Module Sample.

Definition alice : string := "aaaaaaaaaaaaaaaaaaaaaaaa".
Definition bob : string := "bbbbbbbbbbbbbbbbbbbbbbbb".

Definition mk (id owner ttl : string) (done : bool) (at_ : Z) : task :=
  {| _id := id; title := ttl; description := None; completed := done;
     priority := "medium"; dueDate := None; user := owner;
     createdAt := at_; updatedAt := at_ |}.

Definition id1 : string := "000000000000000000000001".
Definition id2 : string := "000000000000000000000002".
Definition id3 : string := "000000000000000000000003".
Definition id4 : string := "000000000000000000000004".
Definition id9 : string := "000000000000000000000009".

(** Three tasks of alice and one of bob. *)
Definition w4 : world :=
  {| tasks := [mk id1 alice "Buy milk" true 100; mk id2 bob "Pay rent" false 200;
               mk id3 alice "Call home" false 300; mk id4 alice "Read" true 400];
     oplog := [] |}.

Definition empty : world := {| tasks := []; oplog := [] |}.

Definition spaces (n : nat) : string := string_of_list_ascii (repeat " "%char n).

(** One letter followed by a hundred spaces. *)
Definition padded_title : string := String "a" (spaces 100).

Definition no_query : query :=
  {| q_completed := None; q_priority := None; q_sort := None;
     q_limit := None; q_skip := None |}.

(** GET ?limit=2 *)
Definition two_per_page : query :=
  {| q_completed := None; q_priority := None; q_sort := None;
     q_limit := Some (QString "2"); q_skip := None |}.


(** Every update operator other than $set is refused. *)
Definition refuse_operators : gmap string jsval -> option (task -> option task) :=
  fun _ => None.

End Sample.

(** ** The routes *)

Section Routes.

(** validator.js isISO8601 and the two conversions of a string to a
    date (the Date constructor, and Mongoose's cast of an update value;
    [None] is an invalid date) are taken as given. *)
Variable isISO8601 : string -> bool.
Variable Date_parse : string -> option Z.
Variable castDate_string : string -> option Z.

(** Whether the Task schema marks [user] immutable (see [TaskSchema]). *)
Variable owner_immutable : bool.

(** What Mongoose and the server make of the update operators of a
    document other than $set ($unset, $inc, $rename and the rest), given
    the whole document: a refusal when the update is cast ([None]), or
    what the operators do to a task that matches, where [None] is a
    refusal by the server. *)
Variable castOperators : gmap string jsval -> option (task -> option task).

(** new Date(v); a plain object gives an invalid date. *)
Definition new_Date (v : jsval) : option Z :=
  match v with
  | JStr s => Date_parse s
  | JNum n => Mongoose.valid_time n
  | JBool b => Some (if b then 1 else 0)
  | JNull => Some 0
  | JObj _ => None
  end.

(** Cast of an update value to the Date schema type; the outer [None]
    is a CastError, the inner one the value null. *)
Definition castDate (v : jsval) : option (option Z) :=
  match v with
  | JNull => Some None
  | JStr s => if String.eqb s "" then Some None else Some <$> castDate_string s
  | JNum n => Some <$> Mongoose.valid_time n
  | JBool _ | JObj _ => None
  end.

(** The object handed to the Task constructor: each path of the schema
    is undefined ([None]) or has a value; [o_dueDate] is a Date,
    possibly invalid, and [o_user] an ObjectId. *)
Record task_object : Type := {
  o_title : option jsval;
  o_description : option jsval;
  o_completed : option jsval;
  o_priority : option jsval;
  o_dueDate : option (option Z);
  o_user : option string
}.

(** new Task(obj) followed by the validation that save() runs; [None]
    is a ValidationError. A path the object leaves undefined takes its
    default, if the schema has one. *)
Definition new_Task (fresh : string) (now : Z) (obj : task_object) : option task :=
  t ← TaskSchema.set_title obj.(o_title);
  d ← TaskSchema.set_description obj.(o_description);
  c ← TaskSchema.set_completed obj.(o_completed);
  p ← TaskSchema.set_priority obj.(o_priority);
  due ← match obj.(o_dueDate) with
         | None => Some None
         | Some (Some z) => Some (Some z)
         | Some None => None
         end;
  u ← obj.(o_user);
  Some {| _id := fresh; title := t; description := d; completed := c; priority := p;
          dueDate := due; user := u; createdAt := now; updatedAt := now |}.

(** What an update sets at a path, given the value it has for it:
    nothing when it has none; the outer [None] is a rejected value. *)
Definition cast_path {A} (v : option jsval) (f : jsval -> option A) : option (option A) :=
  match v with
  | None => Some None
  | Some v => Some <$> f v
  end.

Definition as_ObjectId (v : jsval) : option string :=
  match v with
  | JStr s => Mongoose.castObjectId s
  | _ => None
  end.

(** An update operator is a property whose name starts with a dollar
    sign. *)
Definition is_operator (k : string) : bool := JS.startsWith k "$".

(** The document under $set, if the update has one. *)
Definition under_set (b : gmap string jsval) : gmap string jsval :=
  match b !! "$set" with
  | Some (JObj o) => o
  | _ => ∅
  end.

(** The value the update has for a path: Mongoose moves the plain
    properties of the document under $set, over a property of the same
    name there. *)
Definition set_value (b : gmap string jsval) (k : string) : option jsval :=
  match b !! k with
  | Some v => Some v
  | None => under_set b !! k
  end.

(** The operator properties of an update, and whether there is one
    other than a $set with a document. *)
Definition operators (b : gmap string jsval) : gmap string jsval :=
  filter (fun kv => is_operator kv.1 = true) b.

Definition other_operators (b : gmap string jsval) : bool :=
  match map_to_list (delete "$set" (operators b)) with
  | [] => false
  | _ => true
  end
  || match b !! "$set" with
     | Some (JObj _) | None => false
     | Some _ => true
     end.

(** Cast and validation of an update document against the schema. Of
    the properties under $set those that are not schema paths are
    dropped (strict mode), and so are createdAt and updatedAt, which
    the timestamps own, and an immutable path; the others are cast and
    validated. *)
Definition cast_update (b : gmap string jsval) : option Store.update :=
  i ← cast_path (set_value b "_id") as_ObjectId;
  t ← cast_path (set_value b "title") (fun v => TaskSchema.set_title (Some v));
  d ← cast_path (set_value b "description") (fun v => TaskSchema.set_description (Some v));
  c ← cast_path (set_value b "completed") Mongoose.castBoolean;
  p ← cast_path (set_value b "priority") TaskSchema.update_priority;
  due ← cast_path (set_value b "dueDate") castDate;
  u ← (if owner_immutable then Some None else cast_path (set_value b "user") as_ObjectId);
  ops ← (if other_operators b then castOperators b else Some Some);
  Some {| Store.u_id := i; Store.u_title := t; Store.u_description := d;
          Store.u_completed := c; Store.u_priority := p;
          Store.u_dueDate := due; Store.u_user := u; Store.u_operators := ops |}.

(** *** Validation chains, as the routes declare them *)

Definition title_required : Validator.chain :=
  {| Validator.path := "title"; Validator.is_optional := false;
     Validator.steps :=
       [Validator.Check (Validator.isLength 1 (Some 100%nat))
          "Title is required and must be less than 100 characters";
        Validator.Sanitize JS.trim] |}.

Definition title_optional : Validator.chain :=
  {| Validator.path := "title"; Validator.is_optional := true;
     Validator.steps :=
       [Validator.Check (Validator.isLength 1 (Some 100%nat))
          "Title must be less than 100 characters";
        Validator.Sanitize JS.trim] |}.

Definition description_chain : Validator.chain :=
  {| Validator.path := "description"; Validator.is_optional := true;
     Validator.steps :=
       [Validator.Check (Validator.isLength 0 (Some 500%nat))
          "Description must be less than 500 characters";
        Validator.Sanitize JS.trim] |}.

Definition completed_chain : Validator.chain :=
  {| Validator.path := "completed"; Validator.is_optional := true;
     Validator.steps :=
       [Validator.Check Validator.isBoolean "Completed must be a boolean"] |}.

Definition priority_chain : Validator.chain :=
  {| Validator.path := "priority"; Validator.is_optional := true;
     Validator.steps :=
       [Validator.Check (Validator.isIn ["low"; "medium"; "high"])
          "Priority must be low, medium, or high"] |}.

Definition dueDate_chain : Validator.chain :=
  {| Validator.path := "dueDate"; Validator.is_optional := true;
     Validator.steps :=
       [Validator.Check isISO8601 "Due date must be a valid date"] |}.

Definition id_chain : Validator.chain :=
  {| Validator.path := "id"; Validator.is_optional := false;
     Validator.steps := [Validator.Check Validator.isMongoId "Invalid task ID"] |}.

Definition post_chains : list Validator.chain :=
  [title_required; description_chain; priority_chain; dueDate_chain].

Definition put_chains : list Validator.chain :=
  [title_optional; description_chain; completed_chain; priority_chain; dueDate_chain].

(** *** GET /api/tasks *)

(** The defaults of the destructuring; the numbers 10 and 0 reach
    parseInt as the strings they print as. *)
Definition sort_of (q : query) : qvalue := default (QString "-createdAt") q.(q_sort).
Definition limit_of (q : query) : string :=
  default (JS.string_of_Z 10) (String_of <$> q.(q_limit)).
Definition skip_of (q : query) : string :=
  default (JS.string_of_Z 0) (String_of <$> q.(q_skip)).

Definition build_filter (uid : string) (q : query) : Store.conditions :=
  {| Store.c_id := None;
     Store.c_user := uid;
     Store.c_completed :=
       (fun c => match c with QString s => String.eqb s "true" | QNested _ _ => false end)
         <$> q.(q_completed);
     Store.c_priority :=
       match q.(q_priority) with
       | Some (QString p) => if truthy (Some (JStr p)) then Some (Store.Equals p) else None
       | Some (QNested _ test) => Some (Store.Operators test)
       | None => None
       end |}.

(** obj[k] = v on an object literal, for a number v. The key __proto__
    reaches the setter that Object.prototype has for it, which ignores a
    value that is neither an object nor null: no property is created. *)
Definition assign (obj : list (string * Z)) (k : string) (v : Z) : list (string * Z) :=
  if String.eqb k "__proto__" then obj else (obj ++ [(k, v)])%list.

(** sortOptions: an empty object and the one assignment of the branch. *)
Definition sortOptions (sort : string) : list (string * Z) :=
  if JS.startsWith sort "-" then assign [] (JS.substring1 sort) (-1) else assign [] sort 1.

(** A value that is not a string has no startsWith: a TypeError. *)
Definition parse_sort (sort : qvalue) : M (list (string * Z)) :=
  match sort with
  | QString s => ret (sortOptions s)
  | QNested _ _ => throw
  end.

Definition get_tasks (uid : string) (q : query) : M response :=
  try_catch
    (let filter := build_filter uid q in
     sort <- parse_sort (sort_of q) ;;
     l <- find filter sort (JS.parseInt (limit_of q)) (JS.parseInt (skip_of q)) ;;
     n <- countDocuments filter ;;
     ret (TaskList l
            {| total := n;
               limit := JS.parseInt (limit_of q);
               skip := JS.parseInt (skip_of q);
               hasMore :=
                 JS.gt (JS.Int n)
                   (JS.add (JS.parseInt (skip_of q)) (JS.parseInt (limit_of q))) |}))
    (ret (ServerError "Server error fetching tasks")).

(** *** POST /api/tasks *)

Definition post_task (uid fresh : string) (now : Z) (body : gmap string jsval) : M response :=
  let '(errors, body) := Validator.run_body post_chains body in
  try_catch
    (match errors with
     | _ :: _ => ret (ValidationFailed "Validation failed" errors)
     | [] =>
         let title := body !! "title" in
         let description := body !! "description" in
         let priority := body !! "priority" in
         let dueDate := body !! "dueDate" in
         t <- save (new_Task fresh now
                      {| o_title := title;
                         o_description := description;
                         o_completed := None;
                         o_priority :=
                           Some (if truthy priority then default JNull priority
                                 else JStr "medium");
                         o_dueDate :=
                           if truthy dueDate then Some (new_Date (default JNull dueDate))
                           else None;
                         o_user := Some uid |}) ;;
         ret (Created "Task created successfully" t)
     end)
    (ret (ServerError "Server error creating task")).

(** *** PUT /api/tasks/:id *)

Definition put_task (uid : string) (now : Z) (id : string) (body : gmap string jsval)
  : M response :=
  let '(id_errors, _) := Validator.run_chain id_chain (Some (JStr id)) in
  let '(body_errors, body) := Validator.run_body put_chains body in
  let errors := (id_errors ++ body_errors)%list in
  try_catch
    (match errors with
     | _ :: _ => ret (ValidationFailed "Validation failed" errors)
     | [] =>
         let updates := body in
         r <- findOneAndUpdate (by_id_and_user id uid) (cast_update updates) now ;;
         match r with
         | None => ret (NotFound "Task not found")
         | Some t => ret (Updated "Task updated successfully" t)
         end
     end)
    (ret (ServerError "Server error updating task")).

(** *** DELETE /api/tasks/:id *)

Definition delete_task (uid : string) (id : string) : M response :=
  let '(errors, _) := Validator.run_chain id_chain (Some (JStr id)) in
  try_catch
    (match errors with
     | _ :: _ => ret (ValidationFailed "Validation failed" errors)
     | [] =>
         r <- findOneAndDelete (by_id_and_user id uid) ;;
         match r with
         | None => ret (NotFound "Task not found")
         | Some _ => ret (Deleted "Task deleted successfully")
         end
     end)
    (ret (ServerError "Server error deleting task")).

(** ** What the specification calls a valid create input *)

(** Section 4.3 of the specification: title required, 1-100 characters
    after trimming; description optional, at most 500 characters;
    priority optional, one of the enum; dueDate optional, an ISO 8601
    date. *)
Definition spec_valid_create (b : gmap string jsval) : bool :=
  let t := JS.trim (Validator.toString (b !! "title")) in
  (1 <=? String.length t)%nat && (String.length t <=? 100)%nat
  && match b !! "description" with
     | None => true
     | Some v => (String.length (Validator.toString (Some v)) <=? 500)%nat
     end
  && match b !! "priority" with
     | None => true
     | Some v => Validator.isIn ["low"; "medium"; "high"] (Validator.toString (Some v))
     end
  && match b !! "dueDate" with
     | None => true
     | Some v => isISO8601 (Validator.toString (Some v))
     end.

(** The Date constructor reads the dueDate the handler passes to it:
    [new Date(dueDate)] is a valid date. *)
Definition dueDate_read (b : gmap string jsval) : bool :=
  match b !! "dueDate" with
  | Some v => negb (truthy (Some v)) || bool_decide (is_Some (new_Date v))
  | None => true
  end.


(** The field constraints of POST, one test per field, on the values as
    the request supplies them. *)
Definition title_violated (b : gmap string jsval) : bool :=
  negb (Validator.isLength 1 (Some 100%nat) (Validator.toString (b !! "title"))).

Definition description_violated (b : gmap string jsval) : bool :=
  match b !! "description" with
  | Some v => negb (Validator.isLength 0 (Some 500%nat) (Validator.toString (Some v)))
  | None => false
  end.

Definition priority_violated (b : gmap string jsval) : bool :=
  match b !! "priority" with
  | Some v => negb (Validator.isIn ["low"; "medium"; "high"] (Validator.toString (Some v)))
  | None => false
  end.

Definition dueDate_violated (b : gmap string jsval) : bool :=
  match b !! "dueDate" with
  | Some v => negb (isISO8601 (Validator.toString (Some v)))
  | None => false
  end.




(** The errors list and the sanitized body that the validation of POST
    leaves: one entry per field whose test fails, in the order of the
    chains; title and description trimmed. *)
Definition error_for (f message : string) (failed : bool) : list Validator.verror :=
  if failed then [{| Validator.field := f; Validator.msg := message |}] else [].

Definition post_errors (b : gmap string jsval) : list Validator.verror :=
  (error_for "title" "Title is required and must be less than 100 characters"
     (title_violated b)
   ++ error_for "description" "Description must be less than 500 characters"
        (description_violated b)
   ++ error_for "priority" "Priority must be low, medium, or high"
        (priority_violated b)
   ++ error_for "dueDate" "Due date must be a valid date"
        (dueDate_violated b))%list.

Definition trimmed (v : option jsval) : jsval := JStr (JS.trim (Validator.toString v)).

Definition post_sanitized (b : gmap string jsval) : gmap string jsval :=
  let b1 := <["title" := trimmed (b !! "title")]> b in
  match b !! "description" with
  | Some v => <["description" := trimmed (Some v)]> b1
  | None => b1
  end.

(** The document POST builds from a body that passed validation, read
    off the four properties the handler destructures. *)
Definition created_document (uid fresh : string) (now : Z) (b : gmap string jsval)
  : option task :=
  new_Task fresh now
    {| o_title := Some (trimmed (b !! "title"));
       o_description := (fun v => trimmed (Some v)) <$> b !! "description";
       o_completed := None;
       o_priority :=
         Some (if truthy (b !! "priority") then default JNull (b !! "priority")
               else JStr "medium");
       o_dueDate :=
         if truthy (b !! "dueDate") then Some (new_Date (default JNull (b !! "dueDate")))
         else None;
       o_user := Some uid |}.


(** The update names no property [k]: the body has none at its top
    level and none under $set. *)
Definition unnamed (b : gmap string jsval) (k : string) : Prop :=
  b !! k = None /\ under_set b !! k = None.

(** The two ways in which a task is out of a user's reach: no stored
    task has the identifier, or one has and it belongs to another user. *)
Definition no_such_task (id : string) (w : world) : Prop :=
  Forall (fun t => t.(_id) <> Mongoose.lowercase id) w.(tasks).

Definition owned_by_another (id uid : string) (w : world) : Prop :=
  Exists (fun t => t.(_id) = Mongoose.lowercase id) w.(tasks)
  /\ Forall (fun t => t.(_id) = Mongoose.lowercase id -> t.(user) <> uid) w.(tasks).

(** The conditions a store call carries name the given owner. *)
Definition scoped_to (uid : string) (op : store_op) : Prop :=
  match op with
  | OpFind c | OpCountDocuments c | OpFindOneAndUpdate c | OpFindOneAndDelete c =>
      c.(Store.c_user) = uid
  | OpSave t => t.(user) = uid
  end.

(** The order of the default sort: creation times never increase. *)
Definition newest_first (a b : task) : Prop := b.(createdAt) <= a.(createdAt).

(** * Properties *)

(** ** Strings *)

Lemma ltrim_length (s : string) : (String.length (JS.ltrim s) <= String.length s)%nat.
Proof.
  induction s as [|c r IH]; simpl; [lia|].
  destruct (JS.is_space c); simpl; lia.
Qed.

Lemma rtrim_length (s : string) : (String.length (JS.rtrim s) <= String.length s)%nat.
Proof.
  induction s as [|c r IH]; simpl; [lia|].
  destruct (JS.rtrim r); [destruct (JS.is_space c)|]; simpl in *; lia.
Qed.

Lemma trim_length (s : string) : (String.length (JS.trim s) <= String.length s)%nat.
Proof.
  unfold JS.trim. pose proof (rtrim_length (JS.ltrim s)). pose proof (ltrim_length s). lia.
Qed.

(** What [ltrim] leaves is empty or starts with a character that is not
    white space. *)
Lemma ltrim_head (s : string) :
  JS.ltrim s = EmptyString
  \/ exists c r, JS.ltrim s = String c r /\ JS.is_space c = false.
Proof.
  induction s as [|c r IH]; simpl; [by left|].
  destruct (JS.is_space c) eqn:E; [exact IH|].
  right. by exists c, r.
Qed.

Lemma rtrim_keeps_head (c : ascii) (r : string) :
  JS.is_space c = false -> exists r', JS.rtrim (String c r) = String c r'.
Proof.
  intros E. simpl. destruct (JS.rtrim r); [rewrite E|]; eauto.
Qed.

Lemma rtrim_idem (s : string) : JS.rtrim (JS.rtrim s) = JS.rtrim s.
Proof.
  induction s as [|c r IH]; simpl; [done|].
  destruct (JS.rtrim r) as [|c' r'] eqn:E.
  - destruct (JS.is_space c) eqn:Ec; simpl; [done|]. by rewrite Ec.
  - simpl in *. by rewrite IH.
Qed.

Lemma trim_idem (s : string) : JS.trim (JS.trim s) = JS.trim s.
Proof.
  unfold JS.trim. destruct (ltrim_head s) as [->|(c & r & -> & E)]; [done|].
  destruct (rtrim_keeps_head c r E) as [r' Hr]. rewrite Hr.
  simpl JS.ltrim. rewrite E, <- Hr. apply rtrim_idem.
Qed.

(** ** Numbers *)

Lemma of_Z_small (z : Z) : Z.abs z < 2 ^ 53 -> JS.of_Z z = JS.Int z.
Proof. unfold JS.of_Z. intros H. by rewrite (proj2 (Z.ltb_lt _ _) H). Qed.

(** Rounding keeps the sign and does not bring a large integer below
    2^53. *)
Lemma of_Z_large (z : Z) :
  2 ^ 53 <= Z.abs z ->
  match JS.of_Z z with
  | JS.Int y => 2 ^ 53 <= Z.abs y /\ Z.sgn y = Z.sgn z
  | JS.Inf s => s = (z <? 0)
  | JS.NaN => False
  end.
Proof.
  intros Hz. unfold JS.of_Z. rewrite (proj2 (Z.ltb_ge _ _) Hz).
  set (a := Z.abs z) in *. set (e := Z.log2 a - 52).
  assert (Hlog : 53 <= Z.log2 a).
  { change 53 with (Z.log2 (2 ^ 53)). by apply Z.log2_le_mono. }
  assert (He : 1 <= e) by (unfold e; lia).
  assert (Hpos : 0 < a) by lia.
  destruct (Z.log2_spec a Hpos) as [Hlo _].
  assert (Hpow : 2 ^ Z.log2 a = 2 ^ 52 * 2 ^ e).
  { rewrite <- Z.pow_add_r by lia. f_equal. unfold e. lia. }
  assert (H2e : 2 <= 2 ^ e).
  { change 2 with (2 ^ 1) at 1. apply Z.pow_le_mono_r; lia. }
  assert (Hq : 2 ^ 52 <= a / 2 ^ e).
  { apply Z.div_le_lower_bound; lia. }
  set (q := a / 2 ^ e) in *.
  match goal with
  | |- context [if ?c then q + 1 else q] => set (q' := if c then q + 1 else q)
  end.
  assert (Hq' : q <= q') by (unfold q'; destruct (_ || _); lia).
  assert (Hv : 2 ^ 53 <= q' * 2 ^ e).
  { change (2 ^ 53) with (2 ^ 52 * 2). nia. }
  destruct (2 ^ 1024 <=? q' * 2 ^ e); [done|].
  generalize dependent (q' * 2 ^ e). intros v Hv.
  destruct z as [|n|n]; [unfold a in Hpos; cbn in Hpos; lia|..]; cbn [Z.sgn]; lia.
Qed.

(** A count within the capacity exceeds a rounded sum exactly when it
    exceeds the sum. *)
Lemma gt_of_Z (t x : Z) :
  0 <= t <= 2 ^ 53 -> JS.gt (JS.Int t) (JS.of_Z x) = (x <? t).
Proof.
  intros Ht. destruct (Z.lt_ge_cases (Z.abs x) (2 ^ 53)) as [Hx|Hx].
  - by rewrite of_Z_small.
  - pose proof (of_Z_large x Hx) as H.
    destruct (JS.of_Z x) as [|s|y]; [done| |]; cbn [JS.gt].
    + subst s. destruct (Z.ltb_spec x 0), (Z.ltb_spec x t); lia.
    + destruct H as [Hy Hs].
      destruct (Z.ltb_spec y t), (Z.ltb_spec x t); lia.
Qed.

(** ** The collection *)

Lemma insert_sorted_perm spec x l : Permutation (x :: l) (Store.insert_sorted spec x l).
Proof.
  induction l as [|y r IH]; simpl; [done|].
  destruct (Store.doc_compare spec x y); try done.
  rewrite perm_swap. by constructor.
Qed.

Lemma sort_docs_perm spec l : Permutation l (Store.sort_docs spec l).
Proof.
  induction l as [|x r IH]; simpl; [done|].
  unfold Store.sort_docs in *. simpl.
  rewrite <- insert_sorted_perm. by constructor.
Qed.

Lemma order_perm spec l : Permutation l (Store.order spec l).
Proof.
  unfold Store.order. destruct spec as [|[k dir] [|x r]]; try apply sort_docs_perm.
  destruct (String.eqb k "$natural"); [|apply sort_docs_perm].
  destruct (dir <? 0); [|done]. apply Permutation_rev.
Qed.

(** An accepted window: skip is a non-negative integer, limit an
    integer, and the window is what is left after skipping, cut to the
    limit unless that is zero. *)
Lemma window_Some limit skip l p :
  Store.window limit skip l = Some p ->
  exists n k, limit = JS.Int n /\ skip = JS.Int k /\ 0 <= k
    /\ p = (if n =? 0 then drop (Z.to_nat k) l
            else take (Z.to_nat (Z.abs n)) (drop (Z.to_nat k) l)).
Proof.
  unfold Store.window. destruct limit as [| |n], skip as [| |k]; try done.
  destruct (k <? 0) eqn:Hk; [done|]. apply Z.ltb_ge in Hk.
  destruct (_ || _); [done|]. intros [= <-]. by exists n, k.
Qed.

Lemma window_sublist limit skip l p :
  Store.window limit skip l = Some p -> sublist p l.
Proof.
  intros (n & k & _ & _ & _ & ->)%window_Some. destruct (n =? 0).
  - apply sublist_drop.
  - etrans; [apply sublist_take|apply sublist_drop].
Qed.

Lemma page_Some spec limit skip l p :
  Store.page spec limit skip l = Some p ->
  Store.window limit skip (Store.order spec l) = Some p.
Proof. unfold Store.page. by destruct (forallb _ _). Qed.

Lemma page_incl spec limit skip l p :
  Store.page spec limit skip l = Some p -> p ⊆ l.
Proof.
  intros H%page_Some%window_sublist%sublist_subseteq.
  intros x Hx. rewrite (order_perm spec l). by apply H.
Qed.

Lemma matches_user c t : Store.matches c t = true -> t.(user) = c.(Store.c_user).
Proof.
  unfold Store.matches. rewrite !andb_true_iff. intros [[[_ H] _] _].
  symmetry. by apply String.eqb_eq.
Qed.

(** ** GET /api/tasks *)

(** The run of the handler: one find and, when the page is answered,
    one count, both with the filter built from the request. *)
Lemma get_tasks_run uid q w :
  let f := build_filter uid q in
  let hits := List.filter (Store.matches f) w.(tasks) in
  let lim := JS.parseInt (limit_of q) in
  let skp := JS.parseInt (skip_of q) in
  respond (get_tasks uid q) w =
    match sort_of q, Store.castable f with
    | QString s, true =>
        match Store.page (sortOptions s) lim skp hits with
        | Some l =>
            let w2 := {| tasks := w.(tasks);
                         oplog := (w.(oplog) ++ [OpFind f; OpCountDocuments f])%list |} in
            if Z.of_nat (length hits) <=? Store.capacity then
              (TaskList l
                 {| total := Z.of_nat (length hits); limit := lim; skip := skp;
                    hasMore := JS.gt (JS.Int (Z.of_nat (length hits))) (JS.add skp lim) |},
               w2)
            else (ServerError "Server error fetching tasks", w2)
        | None =>
            (ServerError "Server error fetching tasks",
             {| tasks := w.(tasks); oplog := (w.(oplog) ++ [OpFind f])%list |})
        end
    | _, _ => (ServerError "Server error fetching tasks", w)
    end.
Proof.
  intros f hits lim skp.
  unfold respond, get_tasks, try_catch, parse_sort, find, countDocuments, cast_conditions,
    bind, log, read_tasks, lift, ret, throw.
  fold f. destruct (sort_of q) as [s|]; [|done].
  destruct (Store.castable f); [|done].
  simpl. fold f. fold hits. fold lim. fold skp.
  destruct (Store.page _ lim skp _); simpl; [|done].
  fold hits. rewrite <- app_assoc. by destruct (_ <=? Store.capacity).
Qed.

(** The cases of [get_tasks_run] in which the answer is a list. *)
Lemma get_tasks_list uid q w w' l p :
  respond (get_tasks uid q) w = (TaskList l p, w') ->
  let f := build_filter uid q in
  let hits := List.filter (Store.matches f) w.(tasks) in
  exists s,
    sort_of q = QString s
    /\ Store.page (sortOptions s) (JS.parseInt (limit_of q)) (JS.parseInt (skip_of q)) hits
       = Some l
    /\ Z.of_nat (length hits) <= Store.capacity
    /\ p = {| total := Z.of_nat (length hits);
              limit := JS.parseInt (limit_of q);
              skip := JS.parseInt (skip_of q);
              hasMore := JS.gt (JS.Int (Z.of_nat (length hits)))
                           (JS.add (JS.parseInt (skip_of q)) (JS.parseInt (limit_of q))) |}
    /\ w' = {| tasks := w.(tasks);
               oplog := (w.(oplog) ++ [OpFind f; OpCountDocuments f])%list |}.
Proof.
  rewrite get_tasks_run. cbn zeta.
  destruct (sort_of q) as [s|]; [|done]. destruct (Store.castable _); [|done].
  destruct (Store.page _ _ _ _) as [l0|] eqn:Hpage; [|done].
  destruct (_ <=? Store.capacity) eqn:Hcap; [|done]. apply Z.leb_le in Hcap.
  intros [= <- <- <-]. by exists s.
Qed.

(** C1. For every GET /tasks request of an authenticated user, whatever
    the query parameters, the filter has owner equal to that user, every
    call the handler makes on the collection carries that filter, and
    every task of the returned list is a stored task owned by that user:
    no task of another user appears. *)
Theorem get_tasks_only_own (uid : string) (q : query) (w : world) :
  Store.c_user (build_filter uid q) = uid
  /\ (exists ops,
        oplog (respond (get_tasks uid q) w).2 = (oplog w ++ ops)%list
        /\ Forall (scoped_to uid) ops)
  /\ match (respond (get_tasks uid q) w).1 with
     | TaskList l _ => Forall (fun t => t.(user) = uid /\ t ∈ w.(tasks)) l
     | _ => True
     end.
Proof.
  split; [done|].
  rewrite get_tasks_run. cbn zeta.
  destruct (sort_of q) as [s|]; [|by split; [exists []; rewrite app_nil_r|]].
  destruct (Store.castable _); [|by split; [exists []; rewrite app_nil_r|]].
  destruct (Store.page _ _ _ _) as [l|] eqn:Hw; simpl.
  - destruct (_ <=? Store.capacity); simpl;
      (split; [eexists; split; [done|]; by repeat constructor|]); [|done].
    apply Forall_forall. intros t Ht.
    apply page_incl in Hw. apply Hw in Ht.
    apply list_elem_of_In, filter_In in Ht as [Hin Hm].
    split; [by apply matches_user in Hm|by apply list_elem_of_In].
  - split; [|done]. eexists; split; [done|]. by repeat constructor.
Qed.

(** C2. In every successful GET /tasks response, total is the number of
    stored tasks that match the filter (limit and skip play no part);
    limit and skip are the query parameters of those names as parseInt
    reads them, 10 and 0 when the request has none; and hasMore is
    [total > skip + limit]: when the two are integers, hasMore is true
    if and only if total exceeds their sum. *)
Theorem get_tasks_hasMore (uid : string) (q : query) (w w' : world)
    (l : list task) (p : pagination) :
  respond (get_tasks uid q) w = (TaskList l p, w') ->
  p.(total) = Z.of_nat (length (List.filter (Store.matches (build_filter uid q)) w.(tasks)))
  /\ p.(limit) = match q.(q_limit) with
                 | Some (QString s) => JS.parseInt s
                 | Some (QNested printed _) => JS.parseInt printed
                 | None => JS.Int 10
                 end
  /\ p.(skip) = match q.(q_skip) with
                | Some (QString s) => JS.parseInt s
                | Some (QNested printed _) => JS.parseInt printed
                | None => JS.Int 0
                end
  /\ p.(hasMore) = JS.gt (JS.Int p.(total)) (JS.add p.(skip) p.(limit))
  /\ forall s n : Z, p.(skip) = JS.Int s -> p.(limit) = JS.Int n ->
       (p.(hasMore) = true <-> p.(total) > s + n).
Proof.
  intros (srt & _ & Hpage & Hcap & -> & _)%get_tasks_list. cbn [total limit skip hasMore].
  split; [done|].
  split; [unfold limit_of; by destruct (q_limit q) as [[]|]|].
  split; [unfold skip_of; by destruct (q_skip q) as [[]|]|].
  split; [done|].
  intros s n -> ->. cbn [JS.add].
  rewrite gt_of_Z by (unfold Store.capacity in Hcap; lia).
  rewrite Z.ltb_lt. lia.
Qed.

(** ** POST /api/tasks *)

Lemma run_chain_title_required (v : option jsval) :
  Validator.run_chain title_required v =
    (error_for "title" "Title is required and must be less than 100 characters"
       (negb (Validator.isLength 1 (Some 100%nat) (Validator.toString v))),
     Some (trimmed v)).
Proof.
  unfold Validator.run_chain, title_required, error_for. simpl Validator.is_optional.
  cbn [Validator.steps Validator.path Validator.run_steps].
  by destruct (Validator.isLength _ _ _).
Qed.

Lemma run_chain_description (v : jsval) :
  Validator.run_chain description_chain (Some v) =
    (error_for "description" "Description must be less than 500 characters"
       (negb (Validator.isLength 0 (Some 500%nat) (Validator.toString (Some v)))),
     Some (trimmed (Some v))).
Proof.
  unfold Validator.run_chain, description_chain, error_for.
  cbn [Validator.is_optional Validator.steps Validator.path Validator.run_steps].
  by destruct (Validator.isLength _ _ _).
Qed.

Lemma run_chain_priority (v : jsval) :
  Validator.run_chain priority_chain (Some v) =
    (error_for "priority" "Priority must be low, medium, or high"
       (negb (Validator.isIn ["low"; "medium"; "high"] (Validator.toString (Some v)))),
     Some v).
Proof.
  unfold Validator.run_chain, priority_chain, error_for.
  cbn [Validator.is_optional Validator.steps Validator.path Validator.run_steps].
  by destruct (Validator.isIn _ _).
Qed.

Lemma run_chain_dueDate (v : jsval) :
  Validator.run_chain dueDate_chain (Some v) =
    (error_for "dueDate" "Due date must be a valid date"
       (negb (isISO8601 (Validator.toString (Some v)))),
     Some v).
Proof.
  unfold Validator.run_chain, dueDate_chain, error_for.
  cbn [Validator.is_optional Validator.steps Validator.path Validator.run_steps].
  by destruct (isISO8601 _).
Qed.

Lemma run_body_post (b : gmap string jsval) :
  Validator.run_body post_chains b = (post_errors b, post_sanitized b).
Proof.
  unfold post_chains, post_errors, post_sanitized.
  unfold description_violated, priority_violated, dueDate_violated, title_violated.
  cbn [Validator.run_body].
  change (Validator.path title_required) with "title".
  change (Validator.path description_chain) with "description".
  change (Validator.path priority_chain) with "priority".
  change (Validator.path dueDate_chain) with "dueDate".
  rewrite run_chain_title_required. cbn [fst snd Validator.write_back].
  rewrite (lookup_insert_ne b "title" "description") by done.
  set (b1 := <["title" := trimmed (b !! "title")]> b).
  assert (Hp1 : b1 !! "priority" = b !! "priority") by (by apply lookup_insert_ne).
  assert (Hd1 : b1 !! "dueDate" = b !! "dueDate") by (by apply lookup_insert_ne).
  assert (Hb2 : forall v, let b2 := <["description" := v]> b1 in
             b2 !! "priority" = b !! "priority" /\ b2 !! "dueDate" = b !! "dueDate").
  { intros v. simpl. by rewrite !lookup_insert_ne. }
  destruct (b !! "description") as [d|].
  - rewrite run_chain_description. cbn [fst snd Validator.write_back].
    destruct (Hb2 (trimmed (Some d))) as [-> Hd2].
    set (b2 := <["description" := trimmed (Some d)]> b1) in *.
    destruct (b !! "priority") as [p|] eqn:Ep.
    + rewrite run_chain_priority. cbn [fst snd Validator.write_back].
      assert (Hid : <["priority" := p]> b2 = b2).
      { apply insert_id. unfold b2. by rewrite lookup_insert_ne, Hp1. }
      rewrite Hid, Hd2.
      destruct (b !! "dueDate") as [x|] eqn:Ex.
      * rewrite run_chain_dueDate. cbn [fst snd Validator.write_back].
        rewrite insert_id by (by rewrite Hd2). by rewrite app_nil_r.
      * done.
    + cbn [Validator.run_chain priority_chain Validator.is_optional fst snd Validator.write_back].
      rewrite Hd2.
      destruct (b !! "dueDate") as [x|] eqn:Ex.
      * rewrite run_chain_dueDate. cbn [fst snd Validator.write_back].
        rewrite insert_id by (by rewrite Hd2). by rewrite app_nil_r.
      * done.
  - cbn [Validator.run_chain description_chain Validator.is_optional fst snd Validator.write_back].
    rewrite Hp1.
    destruct (b !! "priority") as [p|] eqn:Ep.
    + rewrite run_chain_priority. cbn [fst snd Validator.write_back].
      rewrite (insert_id b1 "priority" p) by (by rewrite Hp1).
      rewrite Hd1.
      destruct (b !! "dueDate") as [x|] eqn:Ex.
      * rewrite run_chain_dueDate. cbn [fst snd Validator.write_back].
        rewrite insert_id by (by rewrite Hd1). by rewrite app_nil_r.
      * done.
    + cbn [Validator.run_chain priority_chain Validator.is_optional fst snd Validator.write_back].
      rewrite Hd1.
      destruct (b !! "dueDate") as [x|] eqn:Ex.
      * rewrite run_chain_dueDate. cbn [fst snd Validator.write_back].
        rewrite insert_id by (by rewrite Hd1). by rewrite app_nil_r.
      * done.
Qed.

Lemma post_sanitized_lookup (b : gmap string jsval) :
  post_sanitized b !! "title" = Some (trimmed (b !! "title"))
  /\ post_sanitized b !! "description" = (fun v => trimmed (Some v)) <$> b !! "description"
  /\ post_sanitized b !! "priority" = b !! "priority"
  /\ post_sanitized b !! "dueDate" = b !! "dueDate".
Proof.
  unfold post_sanitized.
  destruct (b !! "description") as [d|] eqn:Ed; cbn [fmap option_fmap option_map].
  - repeat split; by simplify_map_eq.
  - repeat split; by simplify_map_eq.
Qed.

(** The run of the handler: the errors of the chains, or the document
    saved, or the catch block when save() throws. *)
Lemma post_task_run uid fresh now b w :
  respond (post_task uid fresh now b) w =
    match post_errors b with
    | _ :: _ => (ValidationFailed "Validation failed" (post_errors b), w)
    | [] =>
        match created_document uid fresh now b with
        | Some t =>
            (Created "Task created successfully" t,
             {| tasks := (w.(tasks) ++ [t])%list; oplog := (w.(oplog) ++ [OpSave t])%list |})
        | None => (ServerError "Server error creating task", w)
        end
    end.
Proof.
  unfold post_task. rewrite run_body_post.
  destruct (post_errors b) as [|e errs]; [|done].
  destruct (post_sanitized_lookup b) as (-> & -> & -> & ->).
  fold (created_document uid fresh now b).
  unfold respond, try_catch, save, bind, lift, log, read_tasks, write_tasks, ret, throw.
  by destruct (created_document uid fresh now b).
Qed.



(** What the constructor makes of the object it is given, path by
    path. *)
Lemma new_Task_Some fresh now obj t :
  new_Task fresh now obj = Some t ->
  TaskSchema.set_title obj.(o_title) = Some t.(title)
  /\ TaskSchema.set_description obj.(o_description) = Some t.(description)
  /\ TaskSchema.set_completed obj.(o_completed) = Some t.(completed)
  /\ TaskSchema.set_priority obj.(o_priority) = Some t.(priority)
  /\ obj.(o_user) = Some t.(user)
  /\ t.(_id) = fresh /\ t.(createdAt) = now /\ t.(updatedAt) = now
  /\ match obj.(o_dueDate) with
     | None => t.(dueDate) = None
     | Some d => d = t.(dueDate) /\ is_Some d
     end.
Proof.
  unfold new_Task. intros H.
  apply bind_Some in H as (ti & Hti & H). apply bind_Some in H as (de & Hde & H).
  apply bind_Some in H as (co & Hco & H). apply bind_Some in H as (pr & Hpr & H).
  apply bind_Some in H as (du & Hdu & H). apply bind_Some in H as (us & Hus & H).
  injection H as <-. cbn. repeat split; try done.
  destruct (o_dueDate obj) as [[z|]|]; [|done|]; injection Hdu as <-; eauto.
Qed.

(** A document that POST creates has the schema's default for completed
    and the requester as its owner. *)
Lemma created_document_defaults uid fresh now b t :
  created_document uid fresh now b = Some t ->
  t.(completed) = false /\ t.(user) = uid /\ t.(_id) = fresh
  /\ t.(createdAt) = now /\ t.(updatedAt) = now.
Proof.
  unfold created_document. intros H. apply new_Task_Some in H.
  cbn [o_completed o_user TaskSchema.set_completed] in H.
  destruct H as (_ & _ & Hc & _ & Hu & Hi & Hca & Hua & _).
  injection Hc as <-. injection Hu as <-. done.
Qed.

Lemma set_title_trimmed (v : option jsval) :
  (1 <= String.length (JS.trim (Validator.toString v)) <= 100)%nat ->
  TaskSchema.set_title (Some (trimmed v)) = Some (JS.trim (Validator.toString v)).
Proof.
  intros [Hlo Hhi]. unfold TaskSchema.set_title, trimmed. cbn [Mongoose.castString Validator.toString].
  rewrite trim_idem.
  destruct (JS.trim (Validator.toString v)) as [|c r] eqn:E; [simpl in Hlo; lia|].
  cbn [String.eqb negb andb]. unfold TaskSchema.title_maxlength.
  by rewrite (proj2 (Nat.leb_le _ _) Hhi).
Qed.

Lemma set_description_trimmed (v : jsval) :
  (String.length (Validator.toString (Some v)) <= 500)%nat ->
  TaskSchema.set_description (Some (trimmed (Some v)))
  = Some (Some (JS.trim (Validator.toString (Some v)))).
Proof.
  unfold trimmed. generalize (Validator.toString (Some v)). intros s Hhi.
  unfold TaskSchema.set_description.
  cbn [Mongoose.castString Validator.toString]. rewrite trim_idem.
  unfold TaskSchema.description_maxlength.
  pose proof (trim_length s) as Hle.
  by rewrite (proj2 (Nat.leb_le _ _) (Nat.le_trans _ _ _ Hle Hhi)).
Qed.

(** C3, as amended. For every POST /tasks input that omits priority,
    meets the field constraints of the specification, whose title as
    supplied (before trimming) is at most 100 characters long, and whose
    dueDate, if it has one, is a date that the Date constructor reads,
    the operation succeeds with status 201, the task is stored, and the
    returned task has completed false, priority medium and the
    requester as its owner. *)
Theorem post_defaults (uid fresh : string) (now : Z) (b : gmap string jsval) (w : world) :
  spec_valid_create b = true ->
  b !! "priority" = None ->
  (String.length (Validator.toString (b !! "title")) <= 100)%nat ->
  dueDate_read b = true ->
  exists t,
    respond (post_task uid fresh now b) w
    = (Created "Task created successfully" t,
       {| tasks := (w.(tasks) ++ [t])%list; oplog := (w.(oplog) ++ [OpSave t])%list |})
    /\ status (respond (post_task uid fresh now b) w).1 = 201
    /\ t.(completed) = false /\ t.(priority) = "medium" /\ t.(user) = uid.
Proof.
  intros Hv Hp Hraw Hread. unfold spec_valid_create in Hv. rewrite Hp in Hv.
  rewrite !andb_true_iff in Hv. destruct Hv as [[[[Hlo Hhi] Hd] _] Hx].
  apply Nat.leb_le in Hlo, Hhi.
  assert (He : post_errors b = []).
  { unfold post_errors, title_violated, description_violated, priority_violated,
      dueDate_violated. rewrite Hp.
    assert (Validator.isLength 1 (Some 100%nat) (Validator.toString (b !! "title")) = true) as ->.
    { unfold Validator.isLength. apply andb_true_iff.
      pose proof (trim_length (Validator.toString (b !! "title"))).
      split; apply Nat.leb_le; lia. }
    destruct (b !! "description") as [d|]; [unfold Validator.isLength; rewrite Hd|];
      (destruct (b !! "dueDate") as [x|]; [rewrite Hx|]); done. }
  assert (exists t, created_document uid fresh now b = Some t /\ t.(priority) = "medium")
    as (t & Ht & Hpr).
  { unfold created_document, new_Task.
    cbn [o_title o_description o_completed o_priority o_dueDate o_user].
    rewrite Hp. rewrite set_title_trimmed by lia. cbn [mbind option_bind truthy].
    assert (exists d', TaskSchema.set_description
                ((fun v => trimmed (Some v)) <$> b !! "description") = Some d') as [d' ->].
    { destruct (b !! "description") as [d|]; cbn [fmap option_fmap option_map].
      - apply Nat.leb_le in Hd. rewrite set_description_trimmed by done. eauto.
      - by eexists. }
    cbn [mbind option_bind TaskSchema.set_completed].
    change (TaskSchema.set_priority (Some (JStr "medium"))) with (Some "medium").
    cbn [mbind option_bind]. unfold dueDate_read in Hread.
    destruct (b !! "dueDate") as [x|]; [|cbn; eauto].
    change (default JNull (Some x)) with x.
    destruct (truthy (Some x)); [|cbn; eauto].
    cbn [negb orb] in Hread. apply bool_decide_eq_true in Hread as [z ->]. cbn. eauto. }
  exists t. rewrite post_task_run, He, Ht.
  destruct (created_document_defaults _ _ _ _ _ Ht) as (Hc & Hu & _).
  done.
Qed.








(** C6, as amended. For every sort parameter string whose field name,
    the string without a leading '-', is not __proto__, the Query
    Builder produces a sort specification with a single field:
    descending on the rest of the string when it starts with '-',
    ascending on the whole string otherwise; with no sort parameter it
    is descending on createdAt. *)
Theorem sortOptions_single_field (s : string) (c p l k : option qvalue) :
  match s with String "-" r => r | _ => s end <> "__proto__" ->
  match s with
  | String "-" r => sortOptions s = [(r, -1)]
  | _ => sortOptions s = [(s, 1)]
  end
  /\ length (sortOptions s) = 1%nat
  /\ parse_sort (sort_of {| q_completed := c; q_priority := p; q_sort := Some (QString s);
                            q_limit := l; q_skip := k |}) = ret (sortOptions s)
  /\ parse_sort (sort_of {| q_completed := c; q_priority := p; q_sort := None;
                            q_limit := l; q_skip := k |}) = ret [("createdAt", -1)].
Proof.
  intros Hne.
  assert (H : match s with
              | String "-" r => sortOptions s = [(r, -1)]
              | _ => sortOptions s = [(s, 1)]
              end).
  { unfold sortOptions, JS.startsWith, assign. destruct s as [|a r]; [done|].
    cbn [String.prefix JS.substring1].
    destruct (Ascii.ascii_dec "-" a) as [<-|Hna].
    - apply String.eqb_neq in Hne. rewrite Hne. by destruct r.
    - assert (String a r <> "__proto__") as Hne'%String.eqb_neq.
      { destruct a as [[] [] [] [] [] [] [] []]; try exact Hne. by destruct Hna. }
      rewrite Hne'. destruct a as [[] [] [] [] [] [] [] []]; try done. }
  split; [exact H|]. split; [|done].
  destruct s as [|a r]; [by rewrite H|].
  destruct a as [[] [] [] [] [] [] [] []]; by rewrite H.
Qed.

(** ** PUT and DELETE /api/tasks/:id *)

Lemma run_chain_id (id : string) :
  Validator.run_chain id_chain (Some (JStr id)) =
    (error_for "id" "Invalid task ID" (negb (Validator.isMongoId id)), Some (JStr id)).
Proof.
  unfold Validator.run_chain, id_chain, error_for.
  cbn [Validator.is_optional Validator.steps Validator.path Validator.run_steps
       Validator.toString].
  by destruct (Validator.isMongoId id).
Qed.

Lemma hex_digit_no_mark (c : ascii) :
  Validator.is_hex_digit c = true -> Validator.is_radix_mark c = false.
Proof. destruct c as [[] [] [] [] [] [] [] []]; by vm_compute. Qed.

(** An identifier of the store's shape passes the test of the route. *)
Lemma is_hex24_isMongoId (s : string) :
  Mongoose.is_hex24 s = true -> Validator.isMongoId s = true.
Proof.
  unfold Mongoose.is_hex24, Validator.isMongoId, Validator.isHexadecimal.
  intros [Hlen Hall]%andb_true_iff. rewrite Hlen, andb_true_r.
  destruct s as [|a [|c r]]; [done|done|].
  cbn [list_ascii_of_string forallb] in Hall.
  apply andb_true_iff in Hall as [Ha [Hc Hr]%andb_true_iff].
  rewrite (hex_digit_no_mark c Hc), andb_false_r.
  cbn [String.eqb negb list_ascii_of_string forallb andb]. by rewrite Ha, Hc, Hr.
Qed.

Lemma by_id_and_user_Some id uid c :
  by_id_and_user id uid = Some c ->
  Mongoose.is_hex24 id = true
  /\ c = {| Store.c_id := Some (Mongoose.lowercase id); Store.c_user := uid;
            Store.c_completed := None; Store.c_priority := None |}.
Proof.
  unfold by_id_and_user, Mongoose.castObjectId.
  destruct (Mongoose.is_hex24 id); [|done]. by intros [= <-].
Qed.

Lemma update_first_none c f l :
  Forall (fun t => Store.matches c t = false) l -> Store.update_first c f l = Some None.
Proof.
  induction 1 as [|t r Ht _ IH]; simpl; [done|]. by rewrite Ht, IH.
Qed.

Lemma delete_first_none c l :
  Forall (fun t => Store.matches c t = false) l -> Store.delete_first c l = None.
Proof.
  induction 1 as [|t r Ht _ IH]; simpl; [done|]. by rewrite Ht, IH.
Qed.

(** In either case no stored task meets the conditions { _id, user }. *)
Lemma out_of_reach id uid c w :
  by_id_and_user id uid = Some c ->
  no_such_task id w \/ owned_by_another id uid w ->
  Forall (fun t => Store.matches c t = false) w.(tasks).
Proof.
  intros [_ ->]%by_id_and_user_Some H.
  assert (Hall : Forall (fun t => t.(_id) = Mongoose.lowercase id -> t.(user) <> uid)
                   w.(tasks)).
  { destruct H as [H|[_ H]]; [|done]. eapply Forall_impl; [exact H|]. by intros t Ht ?. }
  eapply Forall_impl; [exact Hall|]. intros t Ht.
  unfold Store.matches. cbn [Store.c_id Store.c_user Store.c_completed Store.c_priority
                              Store.opt_eqb Store.asks_match].
  destruct (String.eqb_spec (Mongoose.lowercase id) t.(_id)) as [Hid|]; [|done].
  destruct (String.eqb_spec uid t.(user)) as [Hu|]; [|done].
  by destruct (Ht (eq_sym Hid)).
Qed.

(** The run of PUT: the errors of the chains; or a rejected cast, caught
    before any call on the collection; or the one findOneAndUpdate. *)
Lemma put_task_run uid now id b w :
  respond (put_task uid now id b) w =
    let r := Validator.run_body put_chains b in
    match (error_for "id" "Invalid task ID" (negb (Validator.isMongoId id)) ++ r.1)%list with
    | (_ :: _) as errs => (ValidationFailed "Validation failed" errs, w)
    | [] =>
        match by_id_and_user id uid, cast_update r.2 with
        | Some c, Some u =>
            let w1 := {| tasks := w.(tasks);
                         oplog := (w.(oplog) ++ [OpFindOneAndUpdate c])%list |} in
            match Store.update_first c (Store.apply_update u now) w.(tasks) with
            | Some (Some (t, l')) =>
                (Updated "Task updated successfully" t,
                 {| tasks := l'; oplog := w1.(oplog) |})
            | Some None => (NotFound "Task not found", w1)
            | None => (ServerError "Server error updating task", w1)
            end
        | _, _ => (ServerError "Server error updating task", w)
        end
    end.
Proof.
  unfold put_task. rewrite run_chain_id.
  destruct (Validator.run_body put_chains b) as [errs b'] eqn:E. cbn [fst snd].
  destruct (error_for _ _ _ ++ errs)%list; [|done].
  unfold respond, try_catch, findOneAndUpdate, bind, lift, log, read_tasks, write_tasks,
    ret, throw.
  destruct (by_id_and_user id uid) as [c|]; [|done].
  destruct (cast_update b') as [u|]; [|done]. cbn [tasks oplog].
  by destruct (Store.update_first c _ _) as [[[t l']|]|].
Qed.

Lemma delete_task_run uid id w :
  respond (delete_task uid id) w =
    match error_for "id" "Invalid task ID" (negb (Validator.isMongoId id)) with
    | (_ :: _) as errs => (ValidationFailed "Validation failed" errs, w)
    | [] =>
        match by_id_and_user id uid with
        | Some c =>
            let log' := (w.(oplog) ++ [OpFindOneAndDelete c])%list in
            match Store.delete_first c w.(tasks) with
            | Some (t, l') =>
                (Deleted "Task deleted successfully", {| tasks := l'; oplog := log' |})
            | None => (NotFound "Task not found", {| tasks := w.(tasks); oplog := log' |})
            end
        | None => (ServerError "Server error deleting task", w)
        end
    end.
Proof.
  unfold delete_task. rewrite run_chain_id.
  destruct (error_for _ _ _); [|done].
  unfold respond, try_catch, findOneAndDelete, bind, lift, log, read_tasks, write_tasks,
    ret, throw.
  destruct (by_id_and_user id uid) as [c|]; [|done]. cbn [tasks oplog].
  by destruct (Store.delete_first c _) as [[t l']|].
Qed.

(** C7, as amended. For every well-formed identifier (one of the
    store's shape, 24 hexadecimal digits), a DELETE, and a PUT whose
    body passes the field validation and is accepted by the model as an
    update, answer alike when no task has the identifier and when the
    task that has it belongs to another user: HTTP 404 with the one
    response { success: false, message: 'Task not found' }, and no task
    is modified or removed. *)
Theorem put_delete_not_found (uid id : string) (now : Z)
    (b b' : gmap string jsval) (u : Store.update) (w : world) :
  Mongoose.is_hex24 id = true ->
  Validator.run_body put_chains b = ([], b') ->
  cast_update b' = Some u ->
  no_such_task id w \/ owned_by_another id uid w ->
  let p := respond (put_task uid now id b) w in
  let d := respond (delete_task uid id) w in
  p.1 = NotFound "Task not found" /\ d.1 = NotFound "Task not found"
  /\ status p.1 = 404 /\ status d.1 = 404
  /\ p.2.(tasks) = w.(tasks) /\ d.2.(tasks) = w.(tasks).
Proof.
  intros Hid Hb Hu Hout p d. subst p d.
  rewrite put_task_run, delete_task_run, Hb, (is_hex24_isMongoId id Hid).
  cbn [negb error_for app fst snd]. rewrite Hu.
  destruct (by_id_and_user id uid) as [c|] eqn:Hc.
  - pose proof (out_of_reach id uid c w Hc Hout) as Hno.
    rewrite (update_first_none _ _ _ Hno), (delete_first_none _ _ Hno). by cbn.
  - unfold by_id_and_user, Mongoose.castObjectId in Hc. by rewrite Hid in Hc.
Qed.


(** A property the body lacks is still lacking after validation, when
    the chains on it are optional. *)
Lemma run_body_absent cs (b : gmap string jsval) (k : string) :
  Forall (fun c => c.(Validator.path) = k -> c.(Validator.is_optional) = true) cs ->
  b !! k = None -> (Validator.run_body cs b).2 !! k = None.
Proof.
  intros Hcs. revert b. induction Hcs as [|c cs Hc _ IH]; intros b Hk; [done|].
  cbn [Validator.run_body snd]. apply IH.
  destruct (String.eqb_spec c.(Validator.path) k) as [Heq|Hne].
  - unfold Validator.run_chain. rewrite Heq, Hk, (Hc Heq). done.
  - unfold Validator.write_back. destruct (Validator.run_chain c _).2; [|done].
    by rewrite lookup_insert_ne.
Qed.

Lemma run_body_other cs (b : gmap string jsval) (k : string) :
  Forall (fun c => c.(Validator.path) <> k) cs ->
  (Validator.run_body cs b).2 !! k = b !! k.
Proof.
  intros Hcs. revert b. induction Hcs as [|c cs Hc _ IH]; intros b; [done|].
  cbn [Validator.run_body snd]. rewrite IH. unfold Validator.write_back.
  destruct (Validator.run_chain c _).2; [|done]. by rewrite lookup_insert_ne.
Qed.

(** The validation of PUT leaves the operator properties of the body as
    they are. *)
Lemma put_chains_no_operator (k : string) :
  is_operator k = true -> Forall (fun c => c.(Validator.path) <> k) put_chains.
Proof.
  intros Hk. unfold put_chains.
  repeat constructor; intros Heq; rewrite <- Heq in Hk; discriminate Hk.
Qed.

Lemma sanitized_operators (b : gmap string jsval) :
  let b' := (Validator.run_body put_chains b).2 in
  operators b' = operators b /\ b' !! "$set" = b !! "$set".
Proof.
  intros b'. split; [|by apply run_body_other, put_chains_no_operator].
  assert (Hsame : forall k, is_operator k = true -> b' !! k = b !! k).
  { intros k Hk. by apply run_body_other, put_chains_no_operator. }
  clearbody b'.
  apply map_eq. intros k. unfold operators. rewrite !map_lookup_filter.
  destruct (is_operator k) eqn:Hk.
  - by rewrite Hsame.
  - unfold is_operator, JS.startsWith in *.
    destruct (b' !! k), (b !! k); cbn; repeat case_guard; cbn in *; congruence.
Qed.

Lemma sanitized_other_operators (b : gmap string jsval) :
  other_operators (Validator.run_body put_chains b).2 = other_operators b.
Proof.
  unfold other_operators. destruct (sanitized_operators b) as [-> ->]. done.
Qed.

(** A path the update does not name has no value after validation
    either. *)
Lemma sanitized_unnamed (b : gmap string jsval) (k : string) :
  unnamed b k -> set_value (Validator.run_body put_chains b).2 k = None.
Proof.
  intros [Hk Hs]. unfold set_value, under_set.
  destruct (sanitized_operators b) as [_ ->]. fold (under_set b). rewrite Hs.
  rewrite run_body_absent; [done| |done].
  unfold put_chains. repeat constructor; done.
Qed.

Lemma update_first_some c f l t' l' :
  Store.update_first c f l = Some (Some (t', l')) ->
  exists l1 t l2, l = (l1 ++ t :: l2)%list /\ l' = (l1 ++ t' :: l2)%list
                  /\ Store.matches c t = true /\ f t = Some t'.
Proof.
  revert l'. induction l as [|x r IH]; intros l'; simpl; [done|].
  destruct (Store.matches c x) eqn:Hm.
  - destruct (f x) as [x'|] eqn:Hf; [|done]. intros [= <- <-].
    by exists [], x, r.
  - destruct (Store.update_first c f r) as [[[t1 r1]|]|]; try done.
    intros [= <- <-]. destruct (IH r1 eq_refl) as (l1 & t & l2 & -> & -> & Ht & Hft).
    by exists (x :: l1), t, l2.
Qed.

(** What a successful PUT replaces: one stored task of the requester,
    the one with the identifier, in place, by what the cast update makes
    of it. *)
Lemma put_replaces uid now id (b : gmap string jsval) w w' m t' :
  respond (put_task uid now id b) w = (Updated m t', w') ->
  exists l1 t l2 u,
    w.(tasks) = (l1 ++ t :: l2)%list /\ w'.(tasks) = (l1 ++ t' :: l2)%list
    /\ t.(user) = uid /\ t.(_id) = Mongoose.lowercase id
    /\ cast_update (Validator.run_body put_chains b).2 = Some u
    /\ Store.apply_update u now t = Some t'.
Proof.
  rewrite put_task_run. cbn zeta.
  destruct (_ ++ _)%list; [|done].
  destruct (by_id_and_user id uid) as [c|] eqn:Hc; [|done].
  destruct (cast_update _) as [u|] eqn:Hu; [|done].
  destruct (Store.update_first c _ _) as [[[t1 l']|]|] eqn:Hup; try done.
  intros [= <- <- <-]. cbn [tasks].
  apply update_first_some in Hup as (l1 & t & l2 & Hl & -> & Hm & Hap).
  exists l1, t, l2, u. split; [done|]. split; [done|].
  apply by_id_and_user_Some in Hc as [_ ->].
  pose proof (matches_user _ _ Hm) as Huser. cbn [Store.c_user] in Huser.
  unfold Store.matches in Hm. cbn [Store.c_id Store.opt_eqb] in Hm.
  rewrite !andb_true_iff in Hm. destruct Hm as [[[Hid _] _] _].
  apply String.eqb_eq in Hid. done.
Qed.

(** What the update leaves of a task, path by path. *)
Lemma apply_update_Some u now t t' :
  Store.apply_update u now t = Some t' ->
  exists t1, u.(Store.u_operators) t = Some t1
    /\ t'.(_id) = t.(_id) /\ t'.(updatedAt) = now
    /\ t'.(createdAt) = t1.(createdAt)
    /\ t'.(title) = default t1.(title) u.(Store.u_title)
    /\ t'.(description) = default t1.(description) u.(Store.u_description)
    /\ t'.(completed) = default t1.(completed) u.(Store.u_completed)
    /\ t'.(priority) = default t1.(priority) u.(Store.u_priority)
    /\ t'.(dueDate) = default t1.(dueDate) u.(Store.u_dueDate)
    /\ t'.(user) = default t1.(user) u.(Store.u_user).
Proof.
  unfold Store.apply_update. destruct (Store.u_operators u t) as [t1|]; [|done].
  destruct (_ && _); [|done]. intros [= <-]. by exists t1.
Qed.

(** The parts of a cast update, path by path. *)
Lemma cast_update_Some b u :
  cast_update b = Some u ->
  cast_path (set_value b "title") (fun v => TaskSchema.set_title (Some v))
  = Some u.(Store.u_title)
  /\ cast_path (set_value b "description") (fun v => TaskSchema.set_description (Some v))
     = Some u.(Store.u_description)
  /\ cast_path (set_value b "completed") Mongoose.castBoolean = Some u.(Store.u_completed)
  /\ cast_path (set_value b "priority") TaskSchema.update_priority
     = Some u.(Store.u_priority)
  /\ cast_path (set_value b "dueDate") castDate = Some u.(Store.u_dueDate)
  /\ (if owner_immutable then Some None else cast_path (set_value b "user") as_ObjectId)
     = Some u.(Store.u_user)
  /\ (other_operators b = false -> u.(Store.u_operators) = Some).
Proof.
  unfold cast_update. intros Hu.
  apply bind_Some in Hu as (ui & Hui & Hu). apply bind_Some in Hu as (ut & Hut & Hu).
  apply bind_Some in Hu as (ud & Hud & Hu). apply bind_Some in Hu as (uc & Huc & Hu).
  apply bind_Some in Hu as (up & Hupr & Hu). apply bind_Some in Hu as (ue & Hue & Hu).
  apply bind_Some in Hu as (uu & Huu & Hu). apply bind_Some in Hu as (uo & Huo & Hu).
  injection Hu as <-. cbn. repeat split; try done.
  intros Hno. rewrite Hno in Huo. by injection Huo as <-.
Qed.

(** What a successful PUT changes: one stored task of the requester,
    the one with the identifier, is replaced in place; its _id stays and
    updatedAt is refreshed; and when the update has no operator other
    than $set, createdAt stays and each of the other properties stays
    unless the update names it, at the top level of the body or under
    $set. *)
Lemma put_frame uid now id (b : gmap string jsval) w w' m t' :
  respond (put_task uid now id b) w = (Updated m t', w') ->
  exists l1 t l2,
    w.(tasks) = (l1 ++ t :: l2)%list /\ w'.(tasks) = (l1 ++ t' :: l2)%list
    /\ t.(user) = uid /\ t.(_id) = Mongoose.lowercase id
    /\ t'.(_id) = t.(_id) /\ t'.(updatedAt) = now
    /\ (other_operators b = false ->
        t'.(createdAt) = t.(createdAt)
        /\ (unnamed b "title" -> t'.(title) = t.(title))
        /\ (unnamed b "description" -> t'.(description) = t.(description))
        /\ (unnamed b "completed" -> t'.(completed) = t.(completed))
        /\ (unnamed b "priority" -> t'.(priority) = t.(priority))
        /\ (unnamed b "dueDate" -> t'.(dueDate) = t.(dueDate))
        /\ (unnamed b "user" -> t'.(user) = t.(user))).
Proof.
  intros (l1 & t & l2 & u & Hl & Hl' & Hu & Hi & Hc & Ha)%put_replaces.
  exists l1, t, l2. do 4 (split; [done|]).
  apply apply_update_Some in Ha
    as (t1 & Hops & Hid & Hup & Hcr & Hti & Hde & Hco & Hpr & Hdu & Hus).
  do 2 (split; [done|]). intros Hno.
  apply cast_update_Some in Hc as (Cti & Cde & Cco & Cpr & Cdu & Cus & Cops).
  rewrite sanitized_other_operators in Cops. rewrite (Cops Hno) in Hops.
  injection Hops as <-. split; [done|].
  repeat split; intros Hk%sanitized_unnamed.
  - rewrite Hk in Cti. injection Cti as Cti. by rewrite Hti, <- Cti.
  - rewrite Hk in Cde. injection Cde as Cde. by rewrite Hde, <- Cde.
  - rewrite Hk in Cco. injection Cco as Cco. by rewrite Hco, <- Cco.
  - rewrite Hk in Cpr. injection Cpr as Cpr. by rewrite Hpr, <- Cpr.
  - rewrite Hk in Cdu. injection Cdu as Cdu. by rewrite Hdu, <- Cdu.
  - rewrite Hk in Cus. rewrite Hus.
    destruct owner_immutable; injection Cus as Cus; by rewrite <- Cus.
Qed.

(** The owner under the two readings of the schema. With an immutable
    [user] no update that keeps to $set changes the owner of a task;
    with a [user] that can be written, a body with a user property hands
    the task to that user. *)
Lemma put_owner_by_schema uid now id (b : gmap string jsval) w w' m t' :
  respond (put_task uid now id b) w = (Updated m t', w') ->
  (owner_immutable = true -> other_operators b = false -> t'.(user) = uid)
  /\ (owner_immutable = false ->
      forall s, b !! "user" = Some (JStr s) -> t'.(user) = Mongoose.lowercase s).
Proof.
  intros (l1 & t & l2 & u & Hl & Hl' & Hu & Hi & Hc & Ha)%put_replaces.
  apply apply_update_Some in Ha as (t1 & Hops & _ & _ & _ & _ & _ & _ & _ & _ & Hus).
  apply cast_update_Some in Hc as (_ & _ & _ & _ & _ & Cus & Cops).
  rewrite Hus. split.
  - intros Him Hno. rewrite sanitized_other_operators in Cops.
    rewrite (Cops Hno) in Hops. injection Hops as <-.
    rewrite Him in Cus. by injection Cus as <-.
  - intros Him s Hs. rewrite Him in Cus.
    assert (set_value (Validator.run_body put_chains b).2 "user" = Some (JStr s)) as Hv.
    { unfold set_value. rewrite run_body_other, Hs; [done|].
      unfold put_chains. repeat constructor; done. }
    rewrite Hv in Cus. cbn [cast_path as_ObjectId] in Cus.
    unfold Mongoose.castObjectId in Cus. destruct (Mongoose.is_hex24 s); [|done].
    by injection Cus as <-.
Qed.

(** ** The default order *)

Lemma doc_compare_createdAt (a b : task) :
  Store.doc_compare [("createdAt", -1)] a b = CompOpp (a.(createdAt) ?= b.(createdAt)).
Proof.
  cbn. by destruct (a.(createdAt) ?= b.(createdAt)).
Qed.

Lemma insert_sorted_newest_first x l :
  StronglySorted newest_first l ->
  StronglySorted newest_first (Store.insert_sorted [("createdAt", -1)] x l).
Proof.
  induction 1 as [|y r Hr IH Hy]; cbn [Store.insert_sorted]; [by repeat constructor|].
  rewrite doc_compare_createdAt.
  destruct (x.(createdAt) ?= y.(createdAt)) eqn:E; cbn [CompOpp].
  - apply Z.compare_eq in E. constructor; [by constructor|].
    constructor; [unfold newest_first; lia|].
    eapply Forall_impl; [exact Hy|]. unfold newest_first. intros; lia.
  - constructor; [exact IH|].
    rewrite <- insert_sorted_perm. constructor; [|exact Hy].
    rewrite Z.compare_lt_iff in E. unfold newest_first. lia.
  - rewrite Z.compare_gt_iff in E. constructor; [by constructor|].
    constructor; [unfold newest_first; lia|].
    eapply Forall_impl; [exact Hy|]. unfold newest_first. intros; lia.
Qed.

Lemma sort_docs_newest_first l :
  StronglySorted newest_first (Store.sort_docs [("createdAt", -1)] l).
Proof.
  induction l as [|x r IH]; [constructor|]. by apply insert_sorted_newest_first.
Qed.

Lemma StronglySorted_sublist {A} (R : A -> A -> Prop) (l k : list A) :
  sublist k l -> StronglySorted R l -> StronglySorted R k.
Proof.
  induction 1 as [|x k l Hs IH|x k l Hs IH]; intros Hl; [done| |].
  - apply StronglySorted_inv in Hl as [Hl Hx]. constructor; [by apply IH|].
    apply Forall_forall. intros y Hy. rewrite Forall_forall in Hx. apply Hx.
    by apply (sublist_subseteq _ _ Hs).
  - apply StronglySorted_inv in Hl as [Hl _]. by apply IH.
Qed.

(** X4. With no sort parameter the returned tasks come newest first: their
    creation times never increase along the list. *)
Lemma get_tasks_newest_first uid q w w' l p :
  q.(q_sort) = None ->
  respond (get_tasks uid q) w = (TaskList l p, w') ->
  StronglySorted newest_first l.
Proof.
  intros Hq (srt & Hs & Hpage & _)%get_tasks_list.
  unfold sort_of in Hs. rewrite Hq in Hs. injection Hs as <-.
  apply page_Some, window_sublist in Hpage.
  eapply StronglySorted_sublist; [exact Hpage|]. apply sort_docs_newest_first.
Qed.

(** ** Further properties of GET /api/tasks *)

(** X1. GET reads only: whatever the request and whatever the answer, the
    stored tasks are the ones that were there. *)
Theorem get_tasks_readonly (uid : string) (q : query) (w : world) :
  (respond (get_tasks uid q) w).2.(tasks) = w.(tasks).
Proof.
  rewrite get_tasks_run. cbn zeta.
  destruct (sort_of q); [|done]. destruct (Store.castable _); [|done].
  destruct (Store.page _ _ _ _); [|done]. by destruct (_ <=? Store.capacity).
Qed.

Lemma matches_conditions c t :
  Store.matches c t = true ->
  Store.opt_eqb Bool.eqb c.(Store.c_completed) t.(completed) = true
  /\ Store.asks_match c.(Store.c_priority) t.(priority) = true.
Proof.
  unfold Store.matches. rewrite !andb_true_iff. tauto.
Qed.

(** The tasks of a 200 answer are among the stored tasks that meet the
    filter of the request. *)
Lemma get_tasks_hits uid q w w' l p :
  respond (get_tasks uid q) w = (TaskList l p, w') ->
  Forall (fun t => Store.matches (build_filter uid q) t = true) l.
Proof.
  intros (srt & _ & Hpage & _)%get_tasks_list.
  apply Forall_forall. intros t Ht. apply page_incl in Hpage. apply Hpage in Ht.
  by apply list_elem_of_In, filter_In in Ht as [_ Hm].
Qed.

(** X2. The completed parameter is compared with the string 'true' and with
    nothing else: every task of the answer is completed when the
    parameter is 'true' and not completed for any other string. A
    non-empty priority string is matched exactly. *)
Theorem get_tasks_filters (uid : string) (q : query) (w w' : world)
    (l : list task) (p : pagination) :
  respond (get_tasks uid q) w = (TaskList l p, w') ->
  (forall s, q.(q_completed) = Some (QString s) ->
     Forall (fun t => t.(completed) = String.eqb s "true") l)
  /\ (forall s, q.(q_priority) = Some (QString s) -> s <> "" ->
       Forall (fun t => t.(priority) = s) l).
Proof.
  intros Hr. pose proof (get_tasks_hits _ _ _ _ _ _ Hr) as Hl. split.
  - intros s Hs. eapply Forall_impl; [exact Hl|]. intros t Ht.
    apply matches_conditions in Ht as [Hc _].
    unfold build_filter in Hc. cbn [Store.c_completed] in Hc. rewrite Hs in Hc.
    cbn in Hc. symmetry. by apply Bool.eqb_prop in Hc.
  - intros s Hs Hne. eapply Forall_impl; [exact Hl|]. intros t Ht.
    apply matches_conditions in Ht as [_ Hp].
    unfold build_filter in Hp. cbn [Store.c_priority] in Hp. rewrite Hs in Hp.
    destruct s as [|a r]; [done|]. cbn [truthy String.eqb negb Store.asks_match] in Hp.
    symmetry. by apply String.eqb_eq.
Qed.

(** An empty priority parameter is no filter at all: the request is
    answered as if the parameter were absent. *)
Theorem get_tasks_empty_priority (uid : string) (c s l k : option qvalue) (w : world) :
  respond (get_tasks uid {| q_completed := c; q_priority := Some (QString "");
                            q_sort := s; q_limit := l; q_skip := k |}) w
  = respond (get_tasks uid {| q_completed := c; q_priority := None;
                              q_sort := s; q_limit := l; q_skip := k |}) w.
Proof. by rewrite !get_tasks_run. Qed.

(** X5. A sort parameter that is not a string (an array or a nested object
    of the query parser) ends in the catch block: status 500, and the
    collection is not even asked. *)
Theorem get_tasks_sort_not_string (uid : string) (q : query) (w : world)
    (printed : string) (test : option (string -> bool)) :
  q.(q_sort) = Some (QNested printed test) ->
  respond (get_tasks uid q) w = (ServerError "Server error fetching tasks", w).
Proof.
  intros Hs. rewrite get_tasks_run. unfold sort_of. by rewrite Hs.
Qed.


(** ** Further properties of POST /api/tasks *)


(** ** State after a refusal, and what other users see *)

Lemma delete_first_some c l t l' :
  Store.delete_first c l = Some (t, l') ->
  exists l1 l2, l = (l1 ++ t :: l2)%list /\ l' = (l1 ++ l2)%list
                /\ Store.matches c t = true
                /\ Forall (fun x => Store.matches c x = false) l1.
Proof.
  revert l'. induction l as [|x r IH]; intros l'; simpl; [done|].
  destruct (Store.matches c x) eqn:Hm.
  - intros [= <- <-]. by exists [], r.
  - destruct (Store.delete_first c r) as [[d r']|]; [|done].
    intros [= <- <-]. destruct (IH r' eq_refl) as (l1 & l2 & -> & -> & Ht & Hl1).
    exists (x :: l1), l2. repeat split; try done. by constructor.
Qed.

(** X7. A request that is not answered with success leaves every stored
    task as it was: POST unless 201, PUT and DELETE unless 200. For POST
    not even a call on the collection is made. *)
Theorem refusal_keeps_tasks (uid fresh id : string) (now : Z)
    (b : gmap string jsval) (w : world) :
  (status (respond (post_task uid fresh now b) w).1 <> 201 ->
   (respond (post_task uid fresh now b) w).2 = w)
  /\ (status (respond (put_task uid now id b) w).1 <> 200 ->
      (respond (put_task uid now id b) w).2.(tasks) = w.(tasks))
  /\ (status (respond (delete_task uid id) w).1 <> 200 ->
      (respond (delete_task uid id) w).2.(tasks) = w.(tasks)).
Proof.
  split; [|split].
  - rewrite post_task_run. destruct (post_errors b); [|done].
    by destruct (created_document uid fresh now b).
  - rewrite put_task_run. cbn zeta. destruct (_ ++ _)%list; [|done].
    destruct (by_id_and_user id uid); [|done]. destruct (cast_update _); [|done].
    by destruct (Store.update_first _ _ _) as [[[t l']|]|].
  - rewrite delete_task_run. destruct (error_for _ _ _); [|done].
    destruct (by_id_and_user id uid); [|done].
    by destruct (Store.delete_first _ _) as [[t l']|].
Qed.

(** The answer to GET depends on the stored tasks only through the ones
    that meet the filter. *)
Lemma get_tasks_same_hits uid q w1 w2 :
  List.filter (Store.matches (build_filter uid q)) w1.(tasks)
  = List.filter (Store.matches (build_filter uid q)) w2.(tasks) ->
  (respond (get_tasks uid q) w1).1 = (respond (get_tasks uid q) w2).1.
Proof.
  intros H. rewrite !get_tasks_run. cbn zeta. rewrite H.
  destruct (sort_of q); [|done]. destruct (Store.castable _); [|done].
  destruct (Store.page _ _ _ _); [|done]. by destruct (_ <=? Store.capacity).
Qed.

Lemma other_owner_no_match uid q t :
  t.(user) <> uid -> Store.matches (build_filter uid q) t = false.
Proof.
  intros Hne. unfold Store.matches, build_filter. cbn [Store.c_user].
  destruct (String.eqb_spec uid t.(user)) as [Heq|_]; [by destruct Hne|].
  by rewrite andb_false_r.
Qed.

Lemma filter_middle {A} (f : A -> bool) l1 x l2 :
  f x = false -> List.filter f (l1 ++ x :: l2) = List.filter f (l1 ++ l2).
Proof.
  intros Hx. rewrite !List.filter_app. cbn [List.filter]. by rewrite Hx.
Qed.

(** X8. What one user creates or deletes, no other user sees: a GET by
    another user is answered the same before and after, whatever its
    parameters. *)
Theorem others_view_unchanged (uid other fresh id : string) (now : Z)
    (b : gmap string jsval) (q : query) (w : world) :
  other <> uid ->
  (respond (get_tasks other q) (respond (post_task uid fresh now b) w).2).1
  = (respond (get_tasks other q) w).1
  /\ (respond (get_tasks other q) (respond (delete_task uid id) w).2).1
     = (respond (get_tasks other q) w).1.
Proof.
  intros Hne. split; apply get_tasks_same_hits.
  - rewrite post_task_run. destruct (post_errors b); [|done].
    destruct (created_document uid fresh now b) as [t|] eqn:Ht; [|done].
    cbn [snd tasks]. rewrite List.filter_app. cbn [List.filter].
    destruct (created_document_defaults _ _ _ _ _ Ht) as (_ & Hu & _).
    rewrite other_owner_no_match by (rewrite Hu; congruence). by rewrite app_nil_r.
  - rewrite delete_task_run. destruct (error_for _ _ _); [|done].
    destruct (by_id_and_user id uid) as [c|] eqn:Hc; [|done].
    destruct (Store.delete_first c _) as [[t l']|] eqn:Hd; [|done].
    cbn [snd tasks]. apply delete_first_some in Hd as (l1 & l2 & -> & -> & Hm & _).
    symmetry. apply filter_middle, other_owner_no_match.
    apply matches_user in Hm. rewrite Hm.
    unfold by_id_and_user in Hc. destruct (Mongoose.castObjectId id); [|done].
    injection Hc as <-. cbn. congruence.
Qed.

Lemma put_task_cases uid now id b w r w' :
  respond (put_task uid now id b) w = (r, w') ->
  w'.(tasks) = w.(tasks) \/ exists m t', r = Updated m t'.
Proof.
  rewrite put_task_run. cbn zeta.
  destruct (_ ++ _)%list; [|intros [= <- <-]; by left].
  destruct (by_id_and_user id uid); [|intros [= <- <-]; by left].
  destruct (cast_update _); [|intros [= <- <-]; by left].
  destruct (Store.update_first _ _ _) as [[[t l']|]|]; intros [= <- <-];
    [right; eauto|by left|by left].
Qed.

(** X9. What one user updates, no other user sees, when the update
    names no user property, neither at the top level of the body nor
    under $set, and has no update operator other than $set: a GET by
    another user is answered the same before and after the PUT,
    whatever its parameters. The task it changes belonged to the
    requester and still does. *)
Theorem others_view_unchanged_by_put (uid other id : string) (now : Z)
    (b : gmap string jsval) (q : query) (w : world) :
  other <> uid ->
  unnamed b "user" ->
  other_operators b = false ->
  (respond (get_tasks other q) (respond (put_task uid now id b) w).2).1
  = (respond (get_tasks other q) w).1.
Proof.
  intros Hne Hb Hno. apply get_tasks_same_hits.
  destruct (respond (put_task uid now id b) w) as [r w'] eqn:Hr. cbn [snd].
  destruct (put_task_cases _ _ _ _ _ _ _ Hr) as [->|(m & t' & ->)]; [done|].
  apply put_frame in Hr as (l1 & t & l2 & -> & -> & Hu & _ & _ & _ & H).
  destruct (H Hno) as (_ & _ & _ & _ & _ & _ & Huser). specialize (Huser Hb).
  rewrite !filter_middle; [done| |]; apply other_owner_no_match; congruence.
Qed.

(** ** Deleting, and creating, then listing *)

Lemma NoDup_middle_ne {A B} (f : A -> B) (l1 : list A) (t : A) (l2 : list A) :
  NoDup (map f (l1 ++ t :: l2)) -> Forall (fun x => f x <> f t) (l1 ++ l2).
Proof.
  rewrite map_app. cbn [map]. intros H.
  apply NoDup_app in H as (_ & Hdis & H2). apply NoDup_cons in H2 as [Hnot _].
  apply Forall_app. split; apply Forall_forall; intros x Hx Heq.
  - apply (Hdis (f x)); [by apply list_elem_of_fmap_2|]. rewrite Heq. apply list_elem_of_here.
  - apply Hnot. rewrite <- Heq. by apply list_elem_of_fmap_2.
Qed.

(** X10. A successful DELETE removes one task, the requester's task with the
    identifier, and leaves the others in place. With identifiers that
    are unique in the collection no task with the identifier is left,
    and a second DELETE of it is answered 404. *)
Theorem delete_removes (uid id : string) (w w' : world) (m : string) :
  NoDup (map _id w.(tasks)) ->
  respond (delete_task uid id) w = (Deleted m, w') ->
  (exists l1 t l2, w.(tasks) = (l1 ++ t :: l2)%list /\ w'.(tasks) = (l1 ++ l2)%list
                   /\ t.(_id) = Mongoose.lowercase id /\ t.(user) = uid)
  /\ Forall (fun t => t.(_id) <> Mongoose.lowercase id) w'.(tasks)
  /\ (respond (delete_task uid id) w').1 = NotFound "Task not found".
Proof.
  intros Hnd. rewrite delete_task_run.
  destruct (error_for _ _ _) eqn:He; [|done].
  destruct (by_id_and_user id uid) as [c|] eqn:Hc; [|done].
  destruct (Store.delete_first c _) as [[t l']|] eqn:Hd; [|done].
  intros [= <- <-]. cbn [tasks].
  apply delete_first_some in Hd as (l1 & l2 & Hl & -> & Hm & _).
  assert (Hid : t.(_id) = Mongoose.lowercase id /\ t.(user) = uid).
  { pose proof (matches_user _ _ Hm) as Hu.
    destruct (by_id_and_user_Some _ _ _ Hc) as [_ ->].
    unfold Store.matches in Hm. cbn in Hm, Hu. rewrite !andb_true_iff in Hm.
    destruct Hm as [[[Hi _] _] _]. apply String.eqb_eq in Hi. done. }
  destruct Hid as [Hi Hu].
  assert (Hrest : Forall (fun x => x.(_id) <> Mongoose.lowercase id) (l1 ++ l2)).
  { rewrite Hl in Hnd. rewrite <- Hi. by apply NoDup_middle_ne. }
  split; [by exists l1, t, l2|]. split; [done|].
  rewrite delete_task_run, He, Hc. cbn zeta. cbn [tasks].
  rewrite (delete_first_none c (l1 ++ l2)); [done|].
  apply (out_of_reach id uid c {| tasks := (l1 ++ l2)%list; oplog := [] |} Hc).
  by left.
Qed.

(** X11. The handlers keep identifiers unique, provided the identifier given
    to a new task is not in use. *)
Theorem ids_stay_unique (uid fresh id : string) (now : Z)
    (b : gmap string jsval) (w : world) :
  NoDup (map _id w.(tasks)) ->
  (fresh ∉ map _id w.(tasks) ->
   NoDup (map _id (respond (post_task uid fresh now b) w).2.(tasks)))
  /\ NoDup (map _id (respond (put_task uid now id b) w).2.(tasks))
  /\ NoDup (map _id (respond (delete_task uid id) w).2.(tasks)).
Proof.
  intros Hnd. split; [|split].
  - intros Hfresh. rewrite post_task_run. destruct (post_errors b); [|done].
    destruct (created_document uid fresh now b) as [t|] eqn:Ht; [|done].
    cbn [snd tasks]. rewrite map_app. cbn [map].
    destruct (created_document_defaults _ _ _ _ _ Ht) as (_ & _ & Hi & _). rewrite Hi.
    apply NoDup_app. split; [done|]. split; [|apply NoDup_singleton].
    intros x Hx Hx'. apply list_elem_of_singleton in Hx'. by subst x.
  - destruct (respond (put_task uid now id b) w) as [r w'] eqn:Hr. cbn [snd].
    destruct (put_task_cases _ _ _ _ _ _ _ Hr) as [->|(m & t' & ->)]; [done|].
    apply put_frame in Hr as (l1 & t & l2 & Hl & -> & _ & _ & Hi & _).
    rewrite Hl in Hnd. rewrite map_app in *. cbn [map] in *. by rewrite Hi.
  - rewrite delete_task_run. destruct (error_for _ _ _); [|done].
    destruct (by_id_and_user id uid) as [c|]; [|done].
    destruct (Store.delete_first c _) as [[t l']|] eqn:Hd; [|done].
    cbn [snd tasks]. apply delete_first_some in Hd as (l1 & l2 & Hl & -> & _).
    rewrite Hl in Hnd. rewrite map_app in *. cbn [map] in Hnd.
    apply NoDup_app in Hnd as (H1 & Hdis & H2). apply NoDup_cons in H2 as [_ H2].
    apply NoDup_app. split; [done|]. split; [|done].
    intros x Hx Hx'. apply (Hdis x Hx). by apply list_elem_of_further.
Qed.

(** X12. A task that is created shows in its owner's listing: for a request
    without completed and priority filters, total is one more after the
    POST than before. *)
Theorem post_then_get_total (uid fresh : string) (now : Z) (b : gmap string jsval)
    (q : query) (w w1 wa wb : world) (m : string) (t : task)
    (l l' : list task) (p p' : pagination) :
  respond (post_task uid fresh now b) w = (Created m t, w1) ->
  q.(q_completed) = None -> q.(q_priority) = None ->
  respond (get_tasks uid q) w = (TaskList l p, wa) ->
  respond (get_tasks uid q) w1 = (TaskList l' p', wb) ->
  p'.(total) = p.(total) + 1.
Proof.
  rewrite post_task_run. destruct (post_errors b); [|done].
  destruct (created_document uid fresh now b) as [d|] eqn:Hd; [|done].
  intros [= <- <- <-] Hc Hp.
  intros (_ & _ & _ & _ & -> & _)%get_tasks_list (_ & _ & _ & _ & -> & _)%get_tasks_list.
  cbn [total tasks].
  rewrite List.filter_app, length_app. cbn [List.filter].
  destruct (created_document_defaults _ _ _ _ _ Hd) as (_ & Hu & _).
  assert (Store.matches (build_filter uid q) d = true) as ->.
  { unfold Store.matches, build_filter. rewrite Hc, Hp, Hu. cbn.
    by rewrite String.eqb_refl. }
  cbn [length]. lia.
Qed.

(** X14. What a successful PUT leaves alone. One stored task of the
    requester, the one with the identifier, is replaced in place and
    every other task stays; of the replaced task the identifier stays
    and updatedAt becomes the time of the request; and when the update
    has no operator other than $set, createdAt stays and each of title,
    description, completed, priority, dueDate and user stays unless the
    update names that property, at the top level of the body or under
    $set. *)
Theorem put_changes_only_supplied (uid id : string) (now : Z) (b : gmap string jsval)
    (w w' : world) (m : string) (t' : task) :
  respond (put_task uid now id b) w = (Updated m t', w') ->
  exists l1 t l2,
    w.(tasks) = (l1 ++ t :: l2)%list /\ w'.(tasks) = (l1 ++ t' :: l2)%list
    /\ t.(user) = uid /\ t.(_id) = Mongoose.lowercase id
    /\ t'.(_id) = t.(_id) /\ t'.(updatedAt) = now
    /\ (other_operators b = false ->
        t'.(createdAt) = t.(createdAt)
        /\ (unnamed b "title" -> t'.(title) = t.(title))
        /\ (unnamed b "description" -> t'.(description) = t.(description))
        /\ (unnamed b "completed" -> t'.(completed) = t.(completed))
        /\ (unnamed b "priority" -> t'.(priority) = t.(priority))
        /\ (unnamed b "dueDate" -> t'.(dueDate) = t.(dueDate))
        /\ (unnamed b "user" -> t'.(user) = t.(user))).
Proof. apply put_frame. Qed.

(** ** What a successful PUT writes *)








(** ** TaskList: the filtered list *)

Lemma filter_throwing_app {A} (f : A -> option bool) (l1 l2 : list A) :
  Frontend.filter_throwing f (l1 ++ l2) =
    r1 ← Frontend.filter_throwing f l1;
    r2 ← Frontend.filter_throwing f l2;
    Some (r1 ++ r2)%list.
Proof.
  induction l1 as [|x l1 IH]; cbn [app Frontend.filter_throwing].
  - by destruct (Frontend.filter_throwing f l2).
  - destruct (f x) as [k|]; [|done]. cbn [mbind option_bind]. rewrite IH.
    destruct (Frontend.filter_throwing f l1) as [r1|]; [|done]. cbn [mbind option_bind].
    destruct (Frontend.filter_throwing f l2) as [r2|]; [|done]. by destruct k.
Qed.

Lemma filter_throwing_None {A} (f : A -> option bool) (l : list A) :
  Frontend.filter_throwing f l = None <-> Exists (fun x => f x = None) l.
Proof.
  induction l as [|x l IH]; cbn [Frontend.filter_throwing].
  - split; [done|]. by intros H%Exists_nil.
  - rewrite Exists_cons, <- IH. destruct (f x) as [k|]; cbn [mbind option_bind].
    + destruct (Frontend.filter_throwing f l); cbn [mbind option_bind].
      * split; [done|]. intros [H|H]; discriminate H.
      * split; [by right|done].
    + split; [by left|done].
Qed.

Lemma filter_throwing_Some {A} (f : A -> option bool) (l r : list A) :
  Frontend.filter_throwing f l = Some r ->
  r = List.filter (fun x => bool_decide (f x = Some true)) l
  /\ Forall (fun x => is_Some (f x)) l.
Proof.
  revert r. induction l as [|x l IH]; intros r; cbn [Frontend.filter_throwing List.filter].
  - by intros [= <-].
  - destruct (f x) as [k|] eqn:Hx; [|done]. cbn [mbind option_bind].
    destruct (Frontend.filter_throwing f l) as [r'|]; [|done]. cbn [mbind option_bind].
    intros [= <-]. destruct (IH r' eq_refl) as [-> Hall].
    split; [|by constructor]. by destruct k.
Qed.

Lemma List_filter_sublist {A} (f : A -> bool) (l : list A) : sublist (List.filter f l) l.
Proof.
  induction l as [|x l IH]; cbn [List.filter]; [constructor|].
  destruct (f x); by constructor.
Qed.

(** X15. The list throws exactly when some task has no title, or has a title
    that does not contain the search term and no description to look
    into. *)
Theorem filteredTasks_throws_iff (l : list Frontend.item) (searchTerm filter : string) :
  Frontend.filteredTasks (Frontend.Arr l) searchTerm filter = None
  <-> Exists (fun t =>
        match t.(Frontend.i_title) with
        | None => True
        | Some ttl =>
            Frontend.includes (Frontend.toLowerCase ttl) (Frontend.toLowerCase searchTerm)
            = false
            /\ t.(Frontend.i_description) = None
        end) l.
Proof.
  unfold Frontend.filteredTasks. rewrite filter_throwing_None.
  assert (Heq : forall t : Frontend.item,
             Frontend.keeps searchTerm filter t = None <->
             match t.(Frontend.i_title) with
             | None => True
             | Some ttl =>
                 Frontend.includes (Frontend.toLowerCase ttl)
                   (Frontend.toLowerCase searchTerm) = false
                 /\ t.(Frontend.i_description) = None
             end).
  { intros t. unfold Frontend.keeps, Frontend.matchesSearch.
    destruct t.(Frontend.i_title) as [ttl|]; cbn [mbind option_bind]; [|done].
    destruct (Frontend.includes _ _); cbn [mbind option_bind].
    - split; [done|]. intros [H _]. discriminate H.
    - destruct t.(Frontend.i_description); cbn [mbind option_bind]; split; try done.
      intros [_ H]. discriminate H. }
  split; intros H; (eapply Exists_impl; [exact H|]); intros t Ht; by apply Heq.
Qed.

(** X16. When it does not throw, the list is the tasks that match the search
    and the filter, in the order they came in. *)
Theorem filteredTasks_result (l r : list Frontend.item) (searchTerm filter : string) :
  Frontend.filteredTasks (Frontend.Arr l) searchTerm filter = Some r ->
  sublist r l
  /\ forall t, t ∈ r <->
       t ∈ l /\ Frontend.matchesSearch searchTerm t = Some true
       /\ Frontend.matchesFilter filter t = true.
Proof.
  unfold Frontend.filteredTasks. intros H.
  apply filter_throwing_Some in H as [-> Hall]. split; [apply List_filter_sublist|].
  intros t. rewrite list_elem_of_In, filter_In, <- list_elem_of_In.
  rewrite bool_decide_eq_true. unfold Frontend.keeps.
  split; intros [Hin Hk]; (split; [done|]).
  - destruct (Frontend.matchesSearch searchTerm t) as [[]|]; cbn in Hk; try done.
    injection Hk as Hk. done.
  - destruct Hk as [-> ->]. done.
Qed.

Lemma includes_empty (s : string) : Frontend.includes s "" = true.
Proof. by destruct s. Qed.

Lemma prefix_refl (s : string) : String.prefix s s = true.
Proof.
  induction s as [|c r IH]; cbn [String.prefix]; [done|].
  by destruct (Ascii.ascii_dec c c).
Qed.

Lemma includes_refl (s : string) : Frontend.includes s s = true.
Proof. destruct s; cbn [Frontend.includes]; by rewrite prefix_refl. Qed.

Lemma filter_throwing_total {A} (f : A -> option bool) (g : A -> bool) (l : list A) :
  Forall (fun x => f x = Some (g x)) l ->
  Frontend.filter_throwing f l = Some (List.filter g l).
Proof.
  induction 1 as [|x l Hx _ IH]; cbn [Frontend.filter_throwing List.filter]; [done|].
  rewrite Hx, IH. cbn. by destruct (g x).
Qed.

(** X17. With an empty search term and tasks that all have a title, the list
    never throws: 'all' shows every task, 'completed' and 'pending' show
    the completed and the other tasks, and any other value of the
    filter shows none. *)
Theorem filteredTasks_empty_search (l : list Frontend.item) (filter : string) :
  Forall (fun t => is_Some t.(Frontend.i_title)) l ->
  Frontend.filteredTasks (Frontend.Arr l) "" "all" = Some l
  /\ Frontend.filteredTasks (Frontend.Arr l) "" "completed"
     = Some (List.filter Frontend.i_completed l)
  /\ Frontend.filteredTasks (Frontend.Arr l) "" "pending"
     = Some (List.filter (fun t => negb t.(Frontend.i_completed)) l)
  /\ (filter <> "all" -> filter <> "completed" -> filter <> "pending" ->
      Frontend.filteredTasks (Frontend.Arr l) "" filter = Some []).
Proof.
  intros Hl.
  assert (Hk : forall f, Forall (fun t => Frontend.keeps "" f t
                                  = Some (Frontend.matchesFilter f t)) l).
  { intros f. eapply Forall_impl; [exact Hl|]. intros t [ttl Ht].
    unfold Frontend.keeps, Frontend.matchesSearch. rewrite Ht. cbn [mbind option_bind].
    change (Frontend.toLowerCase "") with "". by rewrite includes_empty. }
  unfold Frontend.filteredTasks.
  rewrite (filter_throwing_total _ _ _ (Hk "all")),
    (filter_throwing_total _ _ _ (Hk "completed")),
    (filter_throwing_total _ _ _ (Hk "pending")),
    (filter_throwing_total _ _ _ (Hk filter)).
  split; [|split; [|split]].
  - apply (f_equal Some). clear Hl Hk. induction l as [|x l IH]; [done|].
    cbn [List.filter]. change (Frontend.matchesFilter "all" x) with true. by rewrite IH.
  - apply (f_equal Some). clear Hl Hk. induction l as [|x l IH]; [done|].
    cbn [List.filter]. rewrite IH. unfold Frontend.matchesFilter. cbn.
    by destruct x.(Frontend.i_completed).
  - apply (f_equal Some). clear Hl Hk. induction l as [|x l IH]; [done|].
    cbn [List.filter]. rewrite IH. unfold Frontend.matchesFilter. cbn.
    by destruct x.(Frontend.i_completed).
  - intros H1 H2 H3. apply (f_equal Some). clear Hl Hk.
    induction l as [|x l IH]; [done|].
    cbn [List.filter]. unfold Frontend.matchesFilter at 1.
    apply String.eqb_neq in H1, H2, H3. by rewrite H1, H2, H3.
Qed.

(** A task is found by its title whatever the case of the letters, and
    without a look at its description, which may be missing. *)
Theorem found_by_title (t : Frontend.item) (ttl searchTerm : string) :
  t.(Frontend.i_title) = Some ttl ->
  Frontend.toLowerCase searchTerm = Frontend.toLowerCase ttl ->
  Frontend.matchesSearch searchTerm t = Some true.
Proof.
  intros Ht Hs. unfold Frontend.matchesSearch. rewrite Ht, Hs. cbn [mbind option_bind].
  by rewrite includes_refl.
Qed.

(** ** TaskForm against POST /api/tasks *)

Lemma body_of_lookup (d : Frontend.formData) :
  Frontend.body_of d !! "title" = Some (JStr d.(Frontend.f_title))
  /\ Frontend.body_of d !! "description" = Some (JStr d.(Frontend.f_description))
  /\ Frontend.body_of d !! "priority" = None
  /\ Frontend.body_of d !! "dueDate" = None.
Proof. unfold Frontend.body_of. repeat split; by simplify_map_eq. Qed.

Lemma not_blank_length (s : string) :
  Frontend.blank s = false -> (1 <= String.length (JS.trim s))%nat.
Proof.
  unfold Frontend.blank. destruct (JS.trim s); [done|]. cbn. lia.
Qed.

(** X18. The form hands its data to onSubmit only when neither the title nor
    the description is blank. Sent to POST /api/tasks, such data is
    answered 201 when the title has at most 100 and the description at
    most 500 characters, and 400 otherwise; the created task has both
    texts trimmed and is not completed, whatever the checkbox said. *)
Theorem form_then_post (editing : bool) (f f' : Frontend.form) (d : Frontend.formData)
    (uid fresh : string) (now : Z) (w : world) :
  Frontend.handleSubmit editing f = (f', Some d) ->
  let r := (respond (post_task uid fresh now (Frontend.body_of d)) w).1 in
  d = f.(Frontend.fm_data)
  /\ Frontend.blank d.(Frontend.f_title) = false
  /\ Frontend.blank d.(Frontend.f_description) = false
  /\ if (String.length d.(Frontend.f_title) <=? 100)%nat
        && (String.length d.(Frontend.f_description) <=? 500)%nat
     then exists t, r = Created "Task created successfully" t
            /\ t.(title) = JS.trim d.(Frontend.f_title)
            /\ t.(description) = Some (JS.trim d.(Frontend.f_description))
            /\ t.(completed) = false /\ t.(user) = uid
     else status r = 400.
Proof.
  unfold Frontend.handleSubmit, Frontend.validateForm, Frontend.no_errors.
  cbn [Frontend.e_title Frontend.e_description].
  destruct (Frontend.blank (Frontend.f_title _)) eqn:Ht; cbv beta iota; [done|].
  destruct (Frontend.blank (Frontend.f_description _)) eqn:Hd; cbv beta iota; [done|].
  intros [= <- <-]. split; [done|]. split; [done|]. split; [done|].
  set (d := Frontend.fm_data f) in *.
  destruct (body_of_lookup d) as (Bt & Bd & Bp & Bx).
  rewrite post_task_run.
  unfold post_errors, title_violated, description_violated, priority_violated,
    dueDate_violated. rewrite Bt, Bd, Bp, Bx.
  change (Validator.toString (Some (JStr ?x))) with x.
  apply not_blank_length in Ht, Hd.
  pose proof (trim_length (Frontend.f_title d)) as Lt.
  pose proof (trim_length (Frontend.f_description d)) as Ld.
  unfold Validator.isLength.
  assert ((1 <=? String.length (Frontend.f_title d))%nat = true) as ->
    by (apply Nat.leb_le; lia).
  cbn [Nat.leb andb].
  destruct (String.length (Frontend.f_title d) <=? 100)%nat eqn:H100;
    [|by cbn].
  destruct (String.length (Frontend.f_description d) <=? 500)%nat eqn:H500;
    [|by cbn].
  cbn [negb error_for app andb].
  apply Nat.leb_le in H100, H500.
  unfold created_document, new_Task. rewrite Bt, Bd, Bp, Bx.
  cbn [o_title o_description o_completed o_priority o_dueDate o_user].
  rewrite set_title_trimmed
    by (change (Validator.toString (Some (JStr ?x))) with x; lia).
  cbn [mbind option_bind fmap option_fmap option_map truthy].
  rewrite set_description_trimmed
    by (change (Validator.toString (Some (JStr ?x))) with x; lia).
  cbn. eexists. repeat split.
Qed.

(** ** Dashboard *)

(** X19. The list operations of the Dashboard on an array of tasks. After a
    delete that the server accepted no task with the identifier is
    left and every other task is kept, in order; after an accepted
    update the list has its length, each task with the identifier is
    replaced by the data of the response, each other task stays at its
    place, and editing ends; a rejected request changes nothing. *)
Theorem dashboard_list_updates (s : Frontend.dashboard) (l : list Frontend.item)
    (id : option string) (d : Frontend.data) :
  s.(Frontend.d_tasks) = Frontend.Arr l ->
  (exists l', (Frontend.handleDeleteTask id (Frontend.Resolved d) s).(Frontend.d_tasks)
              = Frontend.Arr l'
     /\ sublist l' l
     /\ Forall (fun t => t.(Frontend.i_id) <> id) l'
     /\ forall t, t ∈ l -> t.(Frontend.i_id) <> id -> t ∈ l')
  /\ (exists l', (Frontend.handleUpdateTask id (Frontend.Resolved d) s).(Frontend.d_tasks)
                = Frontend.Arr l'
       /\ length l' = length l
       /\ (Frontend.handleUpdateTask id (Frontend.Resolved d) s).(Frontend.d_editing) = None
       /\ forall i t, l !! i = Some t ->
            l' !! i = Some (if decide (t.(Frontend.i_id) = id)
                            then Frontend.as_element d else t))
  /\ Frontend.handleAddTask Frontend.Rejected s = s
  /\ Frontend.handleUpdateTask id Frontend.Rejected s = s
  /\ Frontend.handleDeleteTask id Frontend.Rejected s = s.
Proof.
  intros Hs. split; [|split; [|done]].
  - unfold Frontend.handleDeleteTask. rewrite Hs. eexists. split; [done|].
    split; [apply List_filter_sublist|]. split.
    + apply Forall_forall. intros t Ht.
      apply list_elem_of_In, filter_In in Ht as [_ Ht].
      unfold Frontend.same_id in Ht. apply negb_true_iff, bool_decide_eq_false in Ht. done.
    + intros t Ht Hne. apply list_elem_of_In, filter_In. split; [by apply list_elem_of_In|].
      unfold Frontend.same_id. by apply negb_true_iff, bool_decide_eq_false.
  - unfold Frontend.handleUpdateTask. rewrite Hs. eexists. split; [done|].
    split; [apply length_map|]. split; [done|].
    intros i t Hi. rewrite list_lookup_fmap, Hi. cbn. unfold Frontend.same_id.
    by rewrite (bool_decide_decide (Frontend.i_id t = id)); destruct (decide _).
Qed.

Lemma no_properties_throws (searchTerm filter : string) :
  Frontend.keeps searchTerm filter Frontend.no_properties = None.
Proof. done. Qed.

(** X20. The Dashboard against this backend. The body of a 201 answer is the
    envelope { success, message, task }, and handleAddTask appends that
    envelope to the list as if it were the task: the entry has no title,
    and the task list throws on it for every search term and filter. *)
Theorem dashboard_add_then_list (s : Frontend.dashboard) (l : list Frontend.item)
    (uid fresh : string) (now : Z) (b : gmap string jsval) (w : world)
    (searchTerm filter : string) :
  s.(Frontend.d_tasks) = Frontend.Arr l ->
  status (respond (post_task uid fresh now b) w).1 = 201 ->
  let s' := Frontend.handleAddTask
              (Frontend.axios (respond (post_task uid fresh now b) w).1) s in
  s'.(Frontend.d_tasks) = Frontend.Arr (l ++ [Frontend.no_properties])%list
  /\ Frontend.filteredTasks s'.(Frontend.d_tasks) searchTerm filter = None.
Proof.
  intros Hs Hst s'. subst s'. unfold Frontend.axios. rewrite Hst.
  cbn [Z.leb Z.ltb Z.compare Pos.compare Pos.compare_cont andb].
  unfold Frontend.handleAddTask. rewrite Hs. cbn [Frontend.d_tasks Frontend.as_element].
  split; [done|]. unfold Frontend.filteredTasks. apply filter_throwing_None.
  apply Exists_app. right. apply Exists_cons_hd. apply no_properties_throws.
Qed.

(** X21. The first load of the Dashboard against this backend. The body
    of a 200 answer to GET is the envelope { success, tasks, pagination },
    not an array; fetchTasks stores it as the list and ends loading, and
    from then on the task list throws and no later add, update or
    delete brings an array back. *)
Theorem dashboard_fetch_then_list (s : Frontend.dashboard) (uid : string) (q : query)
    (w : world) (searchTerm filter : string) :
  status (respond (get_tasks uid q) w).1 = 200 ->
  let s' := Frontend.fetchTasks (Frontend.axios (respond (get_tasks uid q) w).1) s in
  s'.(Frontend.d_tasks) = Frontend.NotArr
  /\ s'.(Frontend.d_loading) = false
  /\ Frontend.filteredTasks s'.(Frontend.d_tasks) searchTerm filter = None
  /\ forall r id, Frontend.handleAddTask r s' = s'
       /\ Frontend.handleUpdateTask id r s' = s'
       /\ Frontend.handleDeleteTask id r s' = s'.
Proof.
  intros Hst s'. subst s'. unfold Frontend.axios. rewrite Hst.
  cbn [Z.leb Z.ltb Z.compare Pos.compare Pos.compare_cont andb].
  unfold Frontend.fetchTasks. cbn [Frontend.as_tasks Frontend.d_tasks Frontend.d_loading].
  repeat split; try done; by destruct r.
Qed.

(** ** useApi *)

(** X22. makeRequest forgets the state it starts from: the state it ends in
    depends on the outcome of the request alone. Loading is true until
    the last state and false in it; the error is cleared before the
    request, stays cleared on success, and on failure is the message of
    the response body when there is a non-empty one and the message of
    the error otherwise; the data is returned and the error rethrown. *)
Theorem makeRequest_states {A} (o : Frontend.outcome A) (s s0 : Frontend.api_state) :
  let '(states, result) := Frontend.makeRequest o s in
  result = o
  /\ last states = last (Frontend.makeRequest o s0).1
  /\ (exists before final, states = (before ++ [final])%list
        /\ Forall (fun x => x.(Frontend.loading) = true) before
        /\ final.(Frontend.loading) = false
        /\ final.(Frontend.error) =
             match o with
             | Frontend.Fulfilled _ => None
             | Frontend.Thrown e =>
                 Some (match e.(Frontend.response_message) with
                       | Some m => if String.eqb m "" then e.(Frontend.message) else m
                       | None => e.(Frontend.message)
                       end)
             end).
Proof.
  destruct o as [a|e]; cbn.
  - split; [done|]. split; [done|].
    eexists [_; _], _. split; [done|]. by repeat constructor.
  - split; [done|]. split; [done|].
    eexists [_; _; _], _. split; [done|]. by repeat constructor.
Qed.

End Routes.

(** * The routes on sample requests *)

(** The examples run the routes with the reader of calendar dates,
    with a schema whose [user] is immutable, as the specification has
    it, and with no update operator but $set. *)

Import Sample.

Abbreviation GET := get_tasks.
Abbreviation POST := (post_task CalendarDate.isISO8601 CalendarDate.Date_parse).
Abbreviation PUT :=
  (put_task CalendarDate.isISO8601 CalendarDate.Date_parse true refuse_operators).
Abbreviation DELETE := delete_task.

(** POST { title: "Buy milk" } is answered 201 with the defaults. *)
Example post_buy_milk :
  (respond (POST alice id9 1000 {[ "title" := JStr "Buy milk" ]}) empty).1
  = Created "Task created successfully"
      {| _id := id9; title := "Buy milk"; description := None; completed := false;
         priority := "medium"; dueDate := None; user := alice;
         createdAt := 1000; updatedAt := 1000 |}.
Proof. vm_compute. reflexivity. Qed.

(** POST { title: "" } is answered 400 with an errors entry for title. *)
Example post_empty_title :
  respond (POST alice id9 1000 {[ "title" := JStr "" ]}) empty
  = (ValidationFailed "Validation failed"
       [{| Validator.field := "title";
           Validator.msg := "Title is required and must be less than 100 characters" |}],
     empty).
Proof. vm_compute. reflexivity. Qed.

(** GET /tasks?completed=true&limit=5&skip=0 by alice: her two completed
    tasks, newest first. *)
Example get_completed :
  (respond (GET alice {| q_completed := Some (QString "true"); q_priority := None;
                         q_sort := None; q_limit := Some (QString "5");
                         q_skip := Some (QString "0") |}) w4).1
  = TaskList [mk id4 alice "Read" true 400; mk id1 alice "Buy milk" true 100]
      {| total := 2; limit := JS.Int 5; skip := JS.Int 0; hasMore := false |}.
Proof. vm_compute. reflexivity. Qed.

(** GET /tasks with no parameters by alice: her three tasks, newest
    first, a page of ten from the start. *)
Example get_default :
  (respond (GET alice no_query) w4).1
  = TaskList [mk id4 alice "Read" true 400; mk id3 alice "Call home" false 300;
              mk id1 alice "Buy milk" true 100]
      {| total := 3; limit := JS.Int 10; skip := JS.Int 0; hasMore := false |}.
Proof. vm_compute. reflexivity. Qed.

(** A due date in calendar form is stored as its time value. *)
Example post_due_date :
  match (respond (POST alice id9 1000
                    (<["dueDate" := JStr "2024-05-01"]> {[ "title" := JStr "Plan" ]})) empty).1 with
  | Created _ t => t.(dueDate) = Some 1714521600000
  | _ => False
  end.
Proof. vm_compute. reflexivity. Qed.

(** ** GET: pagination on the sample collection *)

(** alice asks for two of her three tasks: hasMore is true, as 3 > 0 + 2. *)
Lemma get_tasks_hasMore_witness :
  let p := {| total := 3; limit := JS.Int 2; skip := JS.Int 0; hasMore := true |} in
  p.(limit) = JS.parseInt "2" /\ p.(skip) = JS.Int 0
  /\ p.(hasMore) = JS.gt (JS.Int p.(total)) (JS.add p.(skip) p.(limit))
  /\ (p.(hasMore) = true <-> p.(total) > 0 + 2).
Proof.
  intros p.
  destruct (get_tasks_hasMore alice two_per_page w4
              {| tasks := w4.(tasks);
                 oplog := [OpFind (build_filter alice two_per_page);
                           OpCountDocuments (build_filter alice two_per_page)] |}
              [mk id4 alice "Read" true 400; mk id3 alice "Call home" false 300]
              p) as (_ & Hl & Hs & Hh & Hiff); [vm_compute; reflexivity|].
  split; [exact Hl|]. split; [exact Hs|]. split; [exact Hh|].
  exact (Hiff 0 2 eq_refl eq_refl).
Defined.

(** Numbers beyond 2^53 are the doubles that parseInt and + give: the
    skip 9007199254740993 is read as 2^53, and its sum with the limit
    -2^53 is 0, so that one matching task makes hasMore true. *)
Example parseInt_rounds :
  JS.parseInt "9007199254740993" = JS.Int 9007199254740992
  /\ JS.add (JS.parseInt "9007199254740993") (JS.parseInt "-9007199254740992") = JS.Int 0
  /\ JS.gt (JS.Int 1)
       (JS.add (JS.parseInt "9007199254740993") (JS.parseInt "-9007199254740992")) = true.
Proof. vm_compute. repeat split. Qed.

(** ** GET: the sort specification *)

(** The key __proto__ leaves the sort specification empty, with or
    without the sign; the request is answered 200 with the tasks in the
    order of insertion. *)
Lemma sortOptions_proto_empty :
  sortOptions "__proto__" = []
  /\ sortOptions "-__proto__" = []
  /\ length (sortOptions "__proto__") <> 1%nat
  /\ (respond (GET alice {| q_completed := None; q_priority := None;
                            q_sort := Some (QString "-__proto__");
                            q_limit := None; q_skip := None |}) w4).1
     = TaskList [mk id1 alice "Buy milk" true 100; mk id3 alice "Call home" false 300;
                 mk id4 alice "Read" true 400]
         {| total := 3; limit := JS.Int 10; skip := JS.Int 0; hasMore := false |}.
Proof. vm_compute. repeat split. discriminate. Qed.

Lemma sortOptions_single_field_witness :
  sortOptions "-title" = [("title", -1)]
  /\ length (sortOptions "-title") = 1%nat
  /\ parse_sort (sort_of {| q_completed := None; q_priority := None;
                            q_sort := Some (QString "-title");
                            q_limit := None; q_skip := None |})
     = ret (sortOptions "-title")
  /\ parse_sort (sort_of no_query) = ret [("createdAt", -1)].
Proof.
  apply (sortOptions_single_field "-title" None None None None). discriminate.
Defined.

(** An empty field name is no field path: the server refuses the sort
    and the answer is 500. *)
Example get_empty_sort_key :
  status (respond (GET alice {| q_completed := None; q_priority := None;
                                q_sort := Some (QString "-");
                                q_limit := None; q_skip := None |}) w4).1 = 500
  /\ status (respond (GET alice {| q_completed := None; q_priority := None;
                                   q_sort := Some (QString "");
                                   q_limit := None; q_skip := None |}) w4).1 = 500.
Proof. vm_compute. split; reflexivity. Qed.

(** ** POST: titles and trimming *)

(** The padded title meets the constraints of the specification (one
    character after trimming) and priority is omitted, yet the answer is
    400, not 201: the length test runs on the title as supplied. And a
    dueDate in the week form is an ISO 8601 date, yet the answer is 500:
    the Date constructor does not read it, and save() refuses the
    invalid date. *)
Lemma post_padded_title_refused :
  let b : gmap string jsval := {[ "title" := JStr padded_title ]} in
  let b' : gmap string jsval :=
    <["dueDate" := JStr "2024-W01"]> {[ "title" := JStr "Plan" ]} in
  spec_valid_create CalendarDate.isISO8601 b = true
  /\ b !! "priority" = None
  /\ String.length (JS.trim padded_title) = 1%nat
  /\ status (respond (POST alice id9 1000 b) empty).1 = 400
  /\ status (respond (POST alice id9 1000 b) empty).1 <> 201
  /\ spec_valid_create CalendarDate.isISO8601 b' = true
  /\ b' !! "priority" = None
  /\ CalendarDate.isISO8601 "2024-W01" = true
  /\ CalendarDate.Date_parse "2024-W01" = None
  /\ status (respond (POST alice id9 1000 b') empty).1 = 500
  /\ status (respond (POST alice id9 1000 b') empty).1 <> 201.
Proof. vm_compute. repeat split; discriminate. Qed.

Lemma post_defaults_witness :
  exists t,
    respond (POST alice id9 1000 {[ "title" := JStr "Buy milk" ]}) w4
    = (Created "Task created successfully" t,
       {| tasks := (w4.(tasks) ++ [t])%list; oplog := (w4.(oplog) ++ [OpSave t])%list |})
    /\ status (respond (POST alice id9 1000 {[ "title" := JStr "Buy milk" ]}) w4).1 = 201
    /\ t.(completed) = false /\ t.(priority) = "medium" /\ t.(user) = alice.
Proof.
  apply (post_defaults CalendarDate.isISO8601 CalendarDate.Date_parse
           alice id9 1000 {[ "title" := JStr "Buy milk" ]} w4).
  - vm_compute. reflexivity.
  - vm_compute. reflexivity.
  - vm_compute. lia.
  - vm_compute. reflexivity.
Defined.





Example post_two_errors :
  (respond (POST alice id9 1000
              (<["priority" := JStr "urgent"]> {[ "title" := JStr "" ]})) empty).1
  = ValidationFailed "Validation failed"
      [{| Validator.field := "title";
          Validator.msg := "Title is required and must be less than 100 characters" |};
       {| Validator.field := "priority";
          Validator.msg := "Priority must be low, medium, or high" |}].
Proof. vm_compute. reflexivity. Qed.


(** The constructor itself takes a completed value and an owner from
    the object it is handed: it is the handler that passes neither on
    from the body. *)
Example new_Task_takes_completed :
  new_Task id9 1000
    {| o_title := Some (JStr "Buy milk"); o_description := None;
       o_completed := Some (JBool true); o_priority := None; o_dueDate := None;
       o_user := Some bob |}
  = Some {| _id := id9; title := "Buy milk"; description := None; completed := true;
            priority := "medium"; dueDate := None; user := bob;
            createdAt := 1000; updatedAt := 1000 |}.
Proof. vm_compute. reflexivity. Qed.

Example post_with_completed_and_user :
  (respond (POST alice id9 1000
              (<["completed" := JBool true]>
                 (<["user" := JStr bob]> {[ "title" := JStr "Buy milk" ]}))) empty).1
  = Created "Task created successfully"
      {| _id := id9; title := "Buy milk"; description := None; completed := false;
         priority := "medium"; dueDate := None; user := alice;
         createdAt := 1000; updatedAt := 1000 |}.
Proof. vm_compute. reflexivity. Qed.

(** ** PUT and DELETE on the sample collection *)

(** With a well-formed identifier that no task has, a PUT whose title
    is empty is answered 400 and a PUT whose dueDate passes the ISO 8601
    test and is no date that the model can cast is answered 500:
    neither is the 404 of a task not found. *)
Lemma put_unknown_id_not_always_404 :
  Validator.isMongoId id9 = true
  /\ Mongoose.is_hex24 id9 = true
  /\ no_such_task id9 w4
  /\ status (respond (PUT alice 1000 id9 {[ "title" := JStr "" ]}) w4).1 = 400
  /\ status (respond (PUT alice 1000 id9 {[ "dueDate" := JStr "2024-W01" ]}) w4).1 = 500.
Proof.
  split; [vm_compute; reflexivity|]. split; [vm_compute; reflexivity|].
  split; [|vm_compute; split; reflexivity].
  unfold no_such_task. vm_compute. repeat constructor; discriminate.
Qed.

(** alice reaches neither bob's task nor a task that does not exist. *)
Lemma put_delete_not_found_witness :
  (respond (PUT alice 1000 id2 {[ "title" := JStr "Mine now" ]}) w4).1
  = NotFound "Task not found"
  /\ (respond (DELETE alice id2) w4).1 = NotFound "Task not found"
  /\ status (respond (PUT alice 1000 id2 {[ "title" := JStr "Mine now" ]}) w4).1 = 404
  /\ status (respond (DELETE alice id2) w4).1 = 404
  /\ (respond (PUT alice 1000 id2 {[ "title" := JStr "Mine now" ]}) w4).2.(tasks) = w4.(tasks)
  /\ (respond (DELETE alice id2) w4).2.(tasks) = w4.(tasks).
Proof.
  eapply (put_delete_not_found CalendarDate.isISO8601 CalendarDate.Date_parse
            true refuse_operators alice id2 1000 {[ "title" := JStr "Mine now" ]}).
  - vm_compute. reflexivity.
  - vm_compute. reflexivity.
  - vm_compute. reflexivity.
  - right. split.
    + apply Exists_cons_tl, Exists_cons_hd. vm_compute. reflexivity.
    + repeat constructor; vm_compute; congruence.
Defined.



(** PUT { user: bob } by alice on her own task, under the two readings
    of the schema. With an immutable [user] the property is stripped and
    the task stays hers; with a [user] that can be written the stored
    task changes owner. *)
Example put_user_property :
  (respond (PUT alice 1000 id1 {[ "user" := JStr bob ]}) w4).1
  = Updated "Task updated successfully"
      {| _id := id1; title := "Buy milk"; description := None; completed := true;
         priority := "medium"; dueDate := None; user := alice;
         createdAt := 100; updatedAt := 1000 |}
  /\ (respond (put_task CalendarDate.isISO8601 CalendarDate.Date_parse false
                 refuse_operators alice 1000 id1 {[ "user" := JStr bob ]}) w4).1
     = Updated "Task updated successfully"
         {| _id := id1; title := "Buy milk"; description := None; completed := true;
            priority := "medium"; dueDate := None; user := bob;
            createdAt := 100; updatedAt := 1000 |}.
Proof. vm_compute. split; reflexivity. Qed.

(** An update under $set is applied like one at the top level of the
    body, while the validation chains of the route see only the latter:
    the title under $set is written as the schema trims it. *)
Example put_under_set :
  (respond (PUT alice 1000 id1
              {[ "$set" := JObj {[ "title" := JStr " Milk " ]} ]}) w4).1
  = Updated "Task updated successfully"
      {| _id := id1; title := "Milk"; description := None; completed := true;
         priority := "medium"; dueDate := None; user := alice;
         createdAt := 100; updatedAt := 1000 |}.
Proof. vm_compute. reflexivity. Qed.

(** The create path reads four properties of the body and sets the
    owner itself; the same body { user: bob } on POST leaves the owner
    with the requester. *)
Example post_keeps_owner :
  match (respond (POST alice id9 1000
                    (<["user" := JStr bob]> {[ "title" := JStr "Buy milk" ]})) empty).1 with
  | Created _ t => t.(user) = alice
  | _ => False
  end.
Proof. vm_compute. reflexivity. Qed.

(** * Further properties on sample requests *)

(** GET ?completed=yes by alice: 'yes' is not 'true', so the answer holds
    her tasks that are not completed. *)
Lemma get_tasks_filters_witness :
  Forall (fun t => t.(completed) = String.eqb "yes" "true")
    [mk id3 alice "Call home" false 300].
Proof.
  refine (proj1 (get_tasks_filters alice
                   {| q_completed := Some (QString "yes"); q_priority := None;
                      q_sort := None; q_limit := None; q_skip := None |}
                   w4 _ _ _ _) "yes" eq_refl).
  vm_compute. reflexivity.
Defined.


Lemma get_tasks_newest_first_witness :
  StronglySorted newest_first
    [mk id4 alice "Read" true 400; mk id3 alice "Call home" false 300;
     mk id1 alice "Buy milk" true 100].
Proof.
  refine (get_tasks_newest_first alice no_query w4 _ _ _ eq_refl _).
  vm_compute. reflexivity.
Defined.

(** GET ?sort[]=title: the sort parameter is an array. *)
Lemma get_tasks_sort_not_string_witness :
  respond (GET alice {| q_completed := None; q_priority := None;
                        q_sort := Some (QNested "title" None);
                        q_limit := None; q_skip := None |}) w4
  = (ServerError "Server error fetching tasks", w4).
Proof.
  by apply (get_tasks_sort_not_string alice _ w4 "title" None).
Defined.


(** A POST with an empty title leaves the world as it was. *)
Lemma refusal_keeps_tasks_witness :
  (respond (POST alice id9 1000 {[ "title" := JStr "" ]}) w4).2 = w4
  /\ (respond (PUT alice 1000 id2 {[ "title" := JStr "Mine" ]}) w4).2.(tasks) = w4.(tasks)
  /\ (respond (DELETE alice id2) w4).2.(tasks) = w4.(tasks).
Proof.
  pose proof (refusal_keeps_tasks CalendarDate.isISO8601 CalendarDate.Date_parse
                CalendarDate.Date_parse true refuse_operators alice id9 id2 1000
                {[ "title" := JStr "" ]} w4) as (Hpost & _ & Hdel).
  pose proof (refusal_keeps_tasks CalendarDate.isISO8601 CalendarDate.Date_parse
                CalendarDate.Date_parse true refuse_operators alice id9 id2 1000
                {[ "title" := JStr "Mine" ]} w4) as (_ & Hput & _).
  split; [apply Hpost; vm_compute; discriminate|].
  split; [apply Hput; vm_compute; discriminate|apply Hdel; vm_compute; discriminate].
Defined.

(** bob's listing is the same before and after alice creates a task and
    deletes one. *)
Lemma others_view_unchanged_witness :
  (respond (GET bob no_query)
     (respond (POST alice id9 1000 {[ "title" := JStr "Buy milk" ]}) w4).2).1
  = (respond (GET bob no_query) w4).1
  /\ (respond (GET bob no_query) (respond (DELETE alice id1) w4).2).1
     = (respond (GET bob no_query) w4).1.
Proof.
  apply (others_view_unchanged CalendarDate.isISO8601 CalendarDate.Date_parse
           alice bob id9 id1 1000). discriminate.
Defined.

Lemma others_view_unchanged_by_put_witness :
  (respond (GET bob no_query)
     (respond (PUT alice 1000 id1 {[ "title" := JStr "Milk" ]}) w4).2).1
  = (respond (GET bob no_query) w4).1.
Proof.
  apply (others_view_unchanged_by_put CalendarDate.isISO8601 CalendarDate.Date_parse
           true refuse_operators alice bob id1 1000).
  - discriminate.
  - split; vm_compute; reflexivity.
  - vm_compute. reflexivity.
Defined.

Lemma sample_ids_unique : NoDup (map _id w4.(tasks)).
Proof.
  cbn.
  repeat (apply NoDup_cons; split;
          [intros Hin; repeat (apply elem_of_cons in Hin as [Hin|Hin]; [discriminate|]);
           by apply elem_of_nil in Hin|]).
  apply NoDup_nil_2.
Qed.

(** alice deletes her first task; a second DELETE is answered 404. *)
Lemma delete_removes_witness :
  (respond (DELETE alice id1)
     {| tasks := [mk id2 bob "Pay rent" false 200; mk id3 alice "Call home" false 300;
                  mk id4 alice "Read" true 400];
        oplog := [OpFindOneAndDelete
                    {| Store.c_id := Some id1; Store.c_user := alice;
                       Store.c_completed := None; Store.c_priority := None |}] |}).1
  = NotFound "Task not found".
Proof.
  refine (proj2 (proj2 (delete_removes alice id1 w4 _ "Task deleted successfully"
                          sample_ids_unique _))).
  vm_compute. reflexivity.
Defined.

Lemma ids_stay_unique_witness :
  NoDup (map _id (respond (POST alice id9 1000 {[ "title" := JStr "Buy milk" ]}) w4).2.(tasks))
  /\ NoDup (map _id (respond (PUT alice 1000 id1 {[ "title" := JStr "Buy milk" ]}) w4).2.(tasks))
  /\ NoDup (map _id (respond (DELETE alice id1) w4).2.(tasks)).
Proof.
  pose proof (ids_stay_unique CalendarDate.isISO8601 CalendarDate.Date_parse
                CalendarDate.Date_parse true refuse_operators alice id9 id1 1000
                {[ "title" := JStr "Buy milk" ]} w4 sample_ids_unique) as (Hpost & Hput & Hdel).
  split; [|by split]. apply Hpost. cbn.
  intros Hin. repeat (apply elem_of_cons in Hin as [Hin|Hin]; [discriminate|]).
  by apply elem_of_nil in Hin.
Defined.

(** alice has three tasks before her POST and four after. *)
Lemma post_then_get_total_witness :
  match (respond (GET alice no_query) w4).1,
        (respond (GET alice no_query)
           (respond (POST alice id9 1000 {[ "title" := JStr "Buy milk" ]}) w4).2).1 with
  | TaskList _ p, TaskList _ p' => p'.(total) = p.(total) + 1
  | _, _ => False
  end.
Proof.
  assert (H : 4 = 3 + 1).
  { refine (post_then_get_total CalendarDate.isISO8601 CalendarDate.Date_parse
              alice id9 1000 {[ "title" := JStr "Buy milk" ]} no_query w4 _ _ _
              "Task created successfully" _ _ _
              {| total := 3; limit := JS.Int 10; skip := JS.Int 0; hasMore := false |}
              {| total := 4; limit := JS.Int 10; skip := JS.Int 0; hasMore := false |}
              _ eq_refl eq_refl _ _).
    - vm_compute. reflexivity.
    - vm_compute. reflexivity.
    - vm_compute. reflexivity. }
  vm_compute. exact H.
Defined.

(** ** PUT on the sample collection *)


(** alice retitles her first task under $set: the title changes, and
    what the update does not name stays. *)
Lemma put_changes_only_supplied_witness :
  let t := mk id1 alice "Buy milk" true 100 in
  let t' := {| _id := id1; title := "Milk"; description := None; completed := true;
               priority := "medium"; dueDate := None; user := alice;
               createdAt := 100; updatedAt := 1000 |} in
  exists l1 t0 l2,
    w4.(tasks) = (l1 ++ t0 :: l2)%list
    /\ t0.(user) = alice /\ t'.(completed) = t0.(completed) /\ t'.(user) = t0.(user).
Proof.
  intros t t'.
  destruct (put_changes_only_supplied CalendarDate.isISO8601 CalendarDate.Date_parse
              true refuse_operators
              alice id1 1000 {[ "$set" := JObj {[ "title" := JStr "Milk" ]} ]} w4
              {| tasks := t' :: tl w4.(tasks);
                 oplog := [OpFindOneAndUpdate
                             {| Store.c_id := Some id1; Store.c_user := alice;
                                Store.c_completed := None; Store.c_priority := None |}] |}
              "Task updated successfully" t')
    as (l1 & t0 & l2 & Hl & _ & Hu & _ & _ & _ & H); [vm_compute; reflexivity|].
  destruct H as (_ & _ & _ & Hc & _ & _ & Hus); [vm_compute; reflexivity|].
  exists l1, t0, l2. split; [exact Hl|]. split; [exact Hu|].
  split; [apply Hc|apply Hus]; split; vm_compute; reflexivity.
Defined.

(** ** The frontend on sample data *)

(** Two tasks with descriptions, searched for 'MILK' among the pending. *)
Lemma filteredTasks_result_witness :
  let a := {| Frontend.i_id := Some id1; Frontend.i_title := Some "Buy milk";
              Frontend.i_description := Some "two litres"; Frontend.i_completed := false |} in
  let b := {| Frontend.i_id := Some id3; Frontend.i_title := Some "Call home";
              Frontend.i_description := Some "about the milk";
              Frontend.i_completed := true |} in
  sublist [a] [a; b]
  /\ forall t, t ∈ [a] <->
       t ∈ [a; b] /\ Frontend.matchesSearch "MILK" t = Some true
       /\ Frontend.matchesFilter "pending" t = true.
Proof.
  intros a b. apply (filteredTasks_result [a; b] [a] "MILK" "pending").
  vm_compute. reflexivity.
Defined.

(** Tasks as the backend stores them, one without a description: with
    an empty search nothing is read but the titles. *)
Lemma filteredTasks_empty_search_witness :
  let l := map Frontend.item_of_task w4.(tasks) in
  Frontend.filteredTasks (Frontend.Arr l) "" "all" = Some l
  /\ Frontend.filteredTasks (Frontend.Arr l) "" "completed"
     = Some (List.filter Frontend.i_completed l)
  /\ Frontend.filteredTasks (Frontend.Arr l) "" "pending"
     = Some (List.filter (fun t => negb t.(Frontend.i_completed)) l)
  /\ ("done" <> "all" -> "done" <> "completed" -> "done" <> "pending" ->
      Frontend.filteredTasks (Frontend.Arr l) "" "done" = Some []).
Proof.
  intros l. apply (filteredTasks_empty_search l "done").
  unfold l. cbn. repeat constructor; by eexists.
Defined.

(** A stored task without a description makes the list throw as soon as
    the search term is not in its title. *)
Example filteredTasks_throws_on_stored_task :
  Frontend.filteredTasks (Frontend.Arr (map Frontend.item_of_task w4.(tasks))) "rent" "all"
  = None.
Proof. vm_compute. reflexivity. Qed.

(** The form with a checked box: accepted by the form and by POST, and
    the task is created not completed. *)
Lemma form_then_post_witness :
  let d := {| Frontend.f_title := " Buy milk"; Frontend.f_description := "two litres";
              Frontend.f_completed := true |} in
  exists t,
    (respond (POST alice id9 1000 (Frontend.body_of d)) w4).1
    = Created "Task created successfully" t
    /\ t.(title) = "Buy milk" /\ t.(completed) = false.
Proof.
  intros d.
  pose proof (form_then_post CalendarDate.isISO8601 CalendarDate.Date_parse false
                {| Frontend.fm_data := d;
                   Frontend.fm_errors := {| Frontend.e_title := None;
                                            Frontend.e_description := None |} |}
                _ d alice id9 1000 w4 eq_refl) as (_ & _ & _ & H).
  destruct H as (t & Hr & Ht & _ & Hc & _). exists t. split; [exact Hr|]. by split.
Defined.

Lemma dashboard_list_updates_witness :
  let a := {| Frontend.i_id := Some id1; Frontend.i_title := Some "Buy milk";
              Frontend.i_description := Some "two litres"; Frontend.i_completed := false |} in
  let s := {| Frontend.d_tasks := Frontend.Arr [a]; Frontend.d_loading := false;
              Frontend.d_editing := Some a |} in
  Frontend.handleAddTask Frontend.Rejected s = s
  /\ Frontend.handleUpdateTask (Some id1) Frontend.Rejected s = s
  /\ Frontend.handleDeleteTask (Some id1) Frontend.Rejected s = s.
Proof.
  intros a s.
  apply (dashboard_list_updates s [a] (Some id1) (Frontend.DObject a) eq_refl).
Defined.

(** The Dashboard starts with an empty list; alice adds a task. *)
Lemma dashboard_add_then_list_witness :
  let s' := Frontend.handleAddTask
              (Frontend.axios
                 (respond (POST alice id9 1000 {[ "title" := JStr "Buy milk" ]}) w4).1)
              Frontend.initial_dashboard in
  s'.(Frontend.d_tasks) = Frontend.Arr ([] ++ [Frontend.no_properties])%list
  /\ Frontend.filteredTasks s'.(Frontend.d_tasks) "" "all" = None.
Proof.
  apply (dashboard_add_then_list CalendarDate.isISO8601 CalendarDate.Date_parse
           Frontend.initial_dashboard [] alice id9 1000
           {[ "title" := JStr "Buy milk" ]} w4 "" "all" eq_refl).
  vm_compute. reflexivity.
Defined.

Lemma dashboard_fetch_then_list_witness :
  let s' := Frontend.fetchTasks (Frontend.axios (respond (GET alice no_query) w4).1)
              Frontend.initial_dashboard in
  s'.(Frontend.d_tasks) = Frontend.NotArr
  /\ s'.(Frontend.d_loading) = false
  /\ Frontend.filteredTasks s'.(Frontend.d_tasks) "" "all" = None
  /\ forall r id, Frontend.handleAddTask r s' = s'
       /\ Frontend.handleUpdateTask id r s' = s'
       /\ Frontend.handleDeleteTask id r s' = s'.
Proof.
  apply (dashboard_fetch_then_list Frontend.initial_dashboard alice no_query w4 "" "all").
  vm_compute. reflexivity.
Defined.
